(** * Smart Research Assistant: the scraping pipeline, its store and its API

    A shallow embedding of
      - [backend/core/scholar_scraper.py]  (class [EnhancedScholarScraper]),
      - [backend/core/database.py]         (class [Database]),
      - [backend/app.py]                   (routes [/api/search] and
                                            [/api/download-pdf]),
      - [backend/utils/api_helpers.py]     ([paginate_results],
                                            [sanitize_input]),
    followed by the properties of the pipeline that were checked on it.

    Conventions.
      - Python [str] values are Rocq strings read as sequences of code points
        below 256; the character predicates below follow Python on that range.
      - Python [int] values are in [Z]; SQLite keeps the 64-bit ones.
      - What a browser, an HTTP server, the clock or the disk answers is an
        input of the model: a page is the record of what the selectors find
        on it, a session is the sequence of pages the browser shows.
      - An exception is a value of [exn]; code that can raise returns a
        [result]. *)

From Stdlib Require Import Bool List String Ascii ZArith Lia DecimalString.
Import ListNotations.
Local Open Scope string_scope.
Local Open Scope list_scope.
Local Open Scope Z_scope.

(* ================================================================== *)
(** * Python text primitives *)
(* ================================================================== *)

Definition code (c : ascii) : nat := nat_of_ascii c.

Definition between (lo hi n : nat) : bool := (Nat.leb lo n && Nat.leb n hi)%bool.

(** [str.isdecimal]: the characters [int()] accepts as digits. *)
Definition isdecimal (c : ascii) : bool := between 48 57 (code c).

(** [str.isdigit]: the decimal digits and the superscripts 2, 3 and 1. *)
Definition isdigit (c : ascii) : bool :=
  (isdecimal c || Nat.eqb (code c) 178 || Nat.eqb (code c) 179
   || Nat.eqb (code c) 185)%bool.

(** [str.isspace]. *)
Definition isspace (c : ascii) : bool :=
  (between 9 13 (code c) || between 28 32 (code c)
   || Nat.eqb (code c) 133 || Nat.eqb (code c) 160)%bool.

(** One character of [str.lower]. *)
Definition lower_char (c : ascii) : ascii :=
  let n := code c in
  if (between 65 90 n || between 192 214 n || between 216 222 n)%bool
  then ascii_of_nat (n + 32) else c.

Fixpoint lower (s : string) : string :=
  match s with
  | EmptyString => EmptyString
  | String c r => String (lower_char c) (lower r)
  end.

Fixpoint lstrip (s : string) : string :=
  match s with
  | EmptyString => EmptyString
  | String c r => if isspace c then lstrip r else s
  end.

Fixpoint rev_onto (s acc : string) : string :=
  match s with
  | EmptyString => acc
  | String c r => rev_onto r (String c acc)
  end.

Definition reverse (s : string) : string := rev_onto s EmptyString.

Definition rstrip (s : string) : string := reverse (lstrip (reverse s)).

(** [str.strip()] *)
Definition strip (s : string) : string := rstrip (lstrip s).

(** [s.startswith(p)] *)
Fixpoint startswith (p s : string) : bool :=
  match p, s with
  | EmptyString, _ => true
  | String a p', String b s' => (Ascii.eqb a b && startswith p' s')%bool
  | String _ _, EmptyString => false
  end.

(** [p in s] *)
Fixpoint contains (p s : string) : bool :=
  (startswith p s ||
   match s with
   | EmptyString => false
   | String _ r => contains p r
   end)%bool.

(** [''.join(filter(pred, s))] *)
Fixpoint filter_chars (pred : ascii -> bool) (s : string) : string :=
  match s with
  | EmptyString => EmptyString
  | String c r => if pred c then String c (filter_chars pred r)
                  else filter_chars pred r
  end.

(** [any(pred(ch) for ch in s)] *)
Fixpoint any_char (pred : ascii -> bool) (s : string) : bool :=
  match s with
  | EmptyString => false
  | String c r => (pred c || any_char pred r)%bool
  end.

(** [s.split(sep)] for a non-empty separator: [skip] counts the characters
    of a separator just recognised that are still to be passed over, [acc]
    is the current piece, reversed. *)
Fixpoint split_from (sep : string) (skip : nat) (acc : string) (s : string)
  : list string :=
  match s with
  | EmptyString => [reverse acc]
  | String c r =>
      match skip with
      | S k => split_from sep k acc r
      | O =>
          if startswith sep s
          then reverse acc :: split_from sep (Nat.pred (String.length sep)) EmptyString r
          else split_from sep 0 (String c acc) r
      end
  end.

Definition str_split (sep s : string) : list string := split_from sep 0 EmptyString s.

(** An f-string: its pieces, joined. *)
Definition fmt (pieces : list string) : string := String.concat "" pieces.

(** [str(n)] for an [int]. *)
Definition str_of_int (n : Z) : string := NilZero.string_of_int (Z.to_int n).

(** Exceptions the modelled code meets. *)
Inductive exn : Type :=
| NoSuchElementException
| TimeoutException
| WebDriverException
| ValueError
| TypeError
| RequestException
| HTTPError
| OSError
| SqliteError
| OverflowError
| AttributeError.

Inductive result (A : Type) : Type :=
| Ok (a : A)
| Raise (e : exn).
Arguments Ok {A} a.
Arguments Raise {A} e.

Definition bind {A B : Type} (r : result A) (k : A -> result B) : result B :=
  match r with
  | Ok a => k a
  | Raise e => Raise e
  end.

Notation "x <- r ;; k" := (bind r (fun x => k))
  (at level 61, r at next level, right associativity).

(** [find_element]: the element, or [NoSuchElementException]. *)
Definition find_element {A : Type} (found : option A) : result A :=
  match found with
  | Some a => Ok a
  | None => Raise NoSuchElementException
  end.

Definition digit_value (c : ascii) : Z := Z.of_nat (code c - 48).

Fixpoint int_digits (acc : Z) (s : string) : result Z :=
  match s with
  | EmptyString => Ok acc
  | String c r =>
      if isdecimal c then int_digits (10 * acc + digit_value c) r
      else Raise ValueError
  end.

(** [int(s)] on a string of [isdigit] characters: the empty string and the
    superscript digits are a [ValueError]. (The interpreter's limit on the
    length of a decimal string, 4300 digits by default, is left out.) *)
Definition python_int (s : string) : result Z :=
  match s with
  | EmptyString => Raise ValueError
  | _ => int_digits 0 s
  end.

(* ================================================================== *)
(** * Result Extractor: [_extract_paper_data] *)
(* ================================================================== *)

(** An [<a>] element: its text and its [href] attribute. *)
Record anchor : Type := {
  anchor_text : string;
  anchor_href : option string
}.

(** What the selectors of [_extract_paper_data] find in one [.gs_ri] block;
    [None] is an element that is not there. [clock] is what
    [datetime.now().isoformat()] reads when the block is extracted. *)
Record result_element : Type := {
  gs_rt_a : option anchor;          (* .gs_rt a                       *)
  gs_a : option string;             (* .gs_a : authors - venue - site *)
  gs_rs : option string;            (* .gs_rs : snippet               *)
  cited_by : option string;         (* .//a[contains(text(),'Cited by')] *)
  gs_or_ggsm_a : option anchor;     (* .gs_or_ggsm a                  *)
  clock : string
}.

(** The dictionary [paper_data]. *)
Record paper : Type := {
  title : string;
  url : option string;
  authors : string;
  year : option Z;
  snippet : string;
  citations : Z;
  pdf_url : option string;
  scraped_at : string;
  id : string
}.

(** The loop over [authors_text.split(' - ')]: [year_match] is the digit
    string of the last segment seen that has a digit; the loop breaks at a
    segment whose digit string has length 4 and starts with "20". *)
Definition year_like (ym : string) : bool :=
  (Nat.eqb (String.length ym) 4 && startswith "20" ym)%bool.

Fixpoint scan_year (parts : list string) (year_match : option string)
  : option string :=
  match parts with
  | [] => year_match
  | part :: rest =>
      if any_char isdigit part then
        let ym := filter_chars isdigit part in
        if year_like ym then Some ym else scan_year rest (Some ym)
      else scan_year rest year_match
  end.

(** [int(year_match) if year_match else None] *)
Definition year_of_match (year_match : option string) : result (option Z) :=
  match year_match with
  | None => Ok None
  | Some EmptyString => Ok None
  | Some ym => y <- python_int ym ;; Ok (Some y)
  end.

Definition extract_year (authors_text : string) : result (option Z) :=
  year_of_match (scan_year (str_split " - " authors_text) None).

Definition extract_authors (authors_text : string) : string :=
  if contains " - " authors_text
  then hd EmptyString (str_split " - " authors_text)
  else authors_text.

(** The inner [try] around the citation link: only
    [NoSuchElementException] is handled there. *)
Definition extract_citations (e : result_element) : result Z :=
  match find_element (cited_by e) with
  | Ok citations_text => python_int (filter_chars isdigit citations_text)
  | Raise NoSuchElementException => Ok 0
  | Raise other => Raise other
  end.

Definition extract_pdf_url (e : result_element) : result (option string) :=
  match find_element (gs_or_ggsm_a e) with
  | Ok pdf_elem => Ok (anchor_href pdf_elem)
  | Raise NoSuchElementException => Ok None
  | Raise other => Raise other
  end.

Section Extractor.

(** [hashlib.md5(s.encode()).hexdigest()] *)
Variable md5_hexdigest : string -> string.

(** The body of the outer [try] of [_extract_paper_data]. *)
Definition extract_fields (e : result_element) : result paper :=
  title_elem <- find_element (gs_rt_a e) ;;
  let title_ := strip (anchor_text title_elem) in
  authors_text <- find_element (gs_a e) ;;
  year_ <- extract_year authors_text ;;
  snippet_elem <- find_element (gs_rs e) ;;
  citations_ <- extract_citations e ;;
  pdf_url_ <- extract_pdf_url e ;;
  Ok {| title := title_;
        url := anchor_href title_elem;
        authors := extract_authors authors_text;
        year := year_;
        snippet := strip snippet_elem;
        citations := citations_;
        pdf_url := pdf_url_;
        scraped_at := clock e;
        id := md5_hexdigest title_ |}.

(** [_extract_paper_data]: [except Exception] logs and returns [None]. *)
Definition _extract_paper_data (e : result_element) : option paper :=
  match extract_fields e with
  | Ok p => Some p
  | Raise _ => None
  end.

End Extractor.

(* ================================================================== *)
(** * Detection Monitor and Pagination Driver: [scrape_papers] *)
(* ================================================================== *)

(** The three XPath probes of [_detect_captcha]: whether each finds an
    element. *)
Record markers : Type := {
  g_recaptcha : bool;        (* //div[contains(@class,'g-recaptcha')]  *)
  recaptcha_iframe : bool;   (* //iframe[contains(@src,'recaptcha')]   *)
  unusual_traffic : bool     (* //*[contains(text(),'unusual traffic')] *)
}.

(** The probes are tried in this order and the first that finds an
    element answers [True]. *)
Definition _detect_captcha (m : markers) : bool :=
  if g_recaptcha m then true
  else if recaptcha_iframe m then true
  else if unusual_traffic m then true
  else false.

(** What one pass of the [while] loop observes of the page the browser
    shows: whether a [.gs_ri] block appears within the 10 s wait, the
    challenge markers, the [.gs_ri] blocks, and the [Next] link with its
    [class] attribute. *)
Record page : Type := {
  gs_ri_appears : bool;
  page_markers : markers;
  gs_ri : list result_element;
  next_button : option (option string)
}.

(** One browser session: whether [_setup_driver] returns a driver and,
    when it does not, the exception it raises ([setup_error], read in that
    case only); the landing page; whether the search box appears within
    its wait; and the result page shown at each pass of the loop (an
    unbounded supply). *)
Record session : Type := {
  driver_starts : bool;
  setup_error : exn;
  landing : markers;
  search_box_appears : bool;
  results : nat -> page
}.

Inductive level : Type := Info | Warning | Error.

(** What the driver does, in order. *)
Inductive event : Type :=
| Get (address : string)                 (* driver.get                   *)
| RandomDelay                            (* _random_delay: 2 to 5 s      *)
| DetectCaptcha (place : option nat)     (* None: on the landing page    *)
| Sleep (seconds : Z)                    (* time.sleep                   *)
| WaitSearchBox
| Clear                                  (* search_box.clear             *)
| SendKeys (text : string)
| Submit
| WaitResults (page_num : nat)
| ClickNext (page_num : nat)
| Quit                                   (* driver.quit                  *)
| HttpGet (address : string)             (* session.get, timeout 30 s    *)
| WriteFile (path : string) (content : string)
| BrokenWrite (path : string)            (* open(path, 'wb'), write failed *)
| Log (lvl : level) (message : string)
| LogExn (message : string) (e : exn).

Inductive outcome : Type :=
| Returned (papers : list paper)
| Raised (e : exn)
| OutOfFuel.

(** How one pass of the [while] body ends. *)
Inductive control : Type :=
| Continue (papers : list paper)
| Break (papers : list paper)
| Throw (e : exn).

Definition len {A : Type} (l : list A) : Z := Z.of_nat (List.length l).

Definition base_url : string := "https://scholar.google.com".

Section Driver.

Variable md5_hexdigest : string -> string.

Definition extraction_log (e : result_element) : list event :=
  match extract_fields md5_hexdigest e with
  | Ok _ => []
  | Raise x => [LogExn "Error extracting paper data" x]
  end.

(** The [for result_elem in result_elements] loop. *)
Fixpoint extract_results (max_results : Z) (papers : list paper)
  (result_elements : list result_element) : list paper * list event :=
  match result_elements with
  | [] => (papers, [])
  | result_elem :: rest =>
      if len papers >=? max_results then (papers, [])
      else
        let papers' :=
          match _extract_paper_data md5_hexdigest result_elem with
          | Some paper_data => papers ++ [paper_data]
          | None => papers
          end in
        let (final, evs) := extract_results max_results papers' rest in
        (final, extraction_log result_elem ++ evs)
  end.

(** The body of [while len(papers) < max_results]. *)
Definition visit_page (max_results : Z) (page_num : nat) (pg : page)
  (papers : list paper) : control * list event :=
  if negb (gs_ri_appears pg) then
    (Throw TimeoutException, [WaitResults page_num])
  else if _detect_captcha (page_markers pg) then
    (Break papers,
     [WaitResults page_num; DetectCaptcha (Some page_num);
      Log Warning "CAPTCHA detected during scraping"])
  else
    match gs_ri pg with
    | [] =>
        (Break papers,
         [WaitResults page_num; DetectCaptcha (Some page_num);
          Log Info "No more results found"])
    | result_elements =>
        let (papers', logged) :=
          extract_results max_results papers result_elements in
        let evs :=
          [WaitResults page_num; DetectCaptcha (Some page_num)] ++ logged ++
          [Log Info (fmt ["Scraped "; str_of_int (len papers'); " papers so far..."])] in
        match next_button pg with
        | None => (Break papers', evs ++ [Log Info "No next page button found"])
        | Some None => (Throw TypeError, evs)
        | Some (Some class) =>
            if contains "disabled" class then (Break papers', evs)
            else (Continue papers', evs ++ [ClickNext page_num; RandomDelay])
        end
    end.

(** The [while] loop; [fuel] bounds the number of passes. *)
Fixpoint scrape_loop (fuel : nat) (pages : nat -> page) (max_results : Z)
  (page_num : nat) (papers : list paper) : outcome * list event :=
  if len papers <? max_results then
    match fuel with
    | O => (OutOfFuel, [])
    | S fuel' =>
        let (ctl, evs) := visit_page max_results page_num (pages page_num) papers in
        match ctl with
        | Continue papers' =>
            let (o, evs') := scrape_loop fuel' pages max_results (S page_num) papers' in
            (o, evs ++ evs')
        | Break papers' => (Returned papers', evs)
        | Throw e => (Raised e, evs)
        end
    end
  else (Returned papers, []).

Definition year_filter (year_range : option (Z * Z)) : list event :=
  match year_range with
  | Some (a, b) =>
      [SendKeys (fmt [" after:"; str_of_int a; " before:"; str_of_int b])]
  | None => []
  end.

(** [except Exception: log; raise] and [finally: driver.quit()] once the
    driver exists. *)
Definition close_run (r : outcome * list event) : outcome * list event :=
  match r with
  | (Returned papers, evs) =>
      (Returned papers,
       evs ++ [Log Info (fmt ["Successfully scraped "; str_of_int (len papers); " papers"]);
               Quit])
  | (Raised e, evs) => (Raised e, evs ++ [LogExn "Error during scraping" e; Quit])
  | (OutOfFuel, evs) => (OutOfFuel, evs)
  end.

(** From the start of the call to the wait for the search box. *)
Definition open_scholar (s : session) (query : string) (max_results : Z)
  : list event :=
  [Log Info (fmt ["Starting scrape for query: "; query; ", max_results: ";
                  str_of_int max_results]);
   Get base_url; RandomDelay; DetectCaptcha None] ++
  (if _detect_captcha (landing s)
   then [Log Warning "CAPTCHA detected, waiting longer..."; Sleep 30]
   else []) ++
  [WaitSearchBox].

(** Typing the query and submitting it. *)
Definition submit_query (query : string) (year_range : option (Z * Z))
  : list event :=
  [Clear; SendKeys query] ++ year_filter year_range ++ [Submit; RandomDelay].

Definition scrape_papers (fuel : nat) (s : session) (query : string)
  (max_results : Z) (year_range : option (Z * Z)) : outcome * list event :=
  if negb (driver_starts s) then
    (Raised (setup_error s),
     [Log Info (fmt ["Starting scrape for query: "; query; ", max_results: ";
                     str_of_int max_results]);
      LogExn "Error during scraping" (setup_error s)])
  else if negb (search_box_appears s) then
    close_run (Raised TimeoutException, open_scholar s query max_results)
  else
    let (o, evs) := scrape_loop fuel (results s) max_results 0 [] in
    close_run (o, open_scholar s query max_results
                  ++ submit_query query year_range ++ evs).

End Driver.

(* ================================================================== *)
(** * Artifact Fetcher: [download_pdf_if_available] *)
(* ================================================================== *)

(** What [self.session.get] answers: an exception of [requests], or a
    response with its status, its [content-type] header and its body. *)
Inductive http_reply : Type :=
| NoReply
| Reply (status_code : Z) (content_type : option string) (content : string).

(** What the download meets outside the program: the user agent
    [self.ua.random] produces (if any); what [session.get] ends with,
    redirects followed; whether [open(filepath, 'wb')] and the write both
    go through ([disk_writable]); and, when they do not, whether [open]
    went through before the failure ([file_opens], read in that case
    only): the file is then created or emptied, and keeps a part of the
    body at most. *)
Record fetch_world : Type := {
  ua_random : option string;
  reply : http_reply;
  disk_writable : bool;
  file_opens : bool
}.

(** [response.raise_for_status()] of [requests]: an [HTTPError] for the
    statuses 400 to 599, nothing otherwise. *)
Definition raise_for_status (status_code : Z) : result unit :=
  if (400 <=? status_code) && (status_code <? 600) then Raise HTTPError
  else Ok tt.

(** [os.path.join] on two components (POSIX). *)
Definition os_path_join (dir name : string) : string :=
  if startswith "/" name then name
  else if (String.eqb dir "" || startswith "/" (reverse dir))%bool
       then fmt [dir; name]
       else fmt [dir; "/"; name].

Definition papers_dir : string := "../data/papers".

(** [not pdf_url] *)
Definition falsy (pdf_url : option string) : bool :=
  match pdf_url with
  | None => true
  | Some u => String.eqb u ""
  end.

(** The body of the [try] of [download_pdf_if_available]. *)
Definition download_body (w : fetch_world) (address paper_id : string)
  : result (option string) * list event :=
  match ua_random w with
  | None => (Raise RequestException, [])
  | Some _ =>
      match reply w with
      | NoReply => (Raise RequestException, [HttpGet address])
      | Reply status_code content_type content =>
          match raise_for_status status_code with
          | Raise e => (Raise e, [HttpGet address])
          | Ok _ =>
              let declared :=
                match content_type with Some t => t | None => "" end in
              if negb (contains "pdf" (lower declared)) then
                (Ok None,
                 [HttpGet address;
                  Log Warning (fmt ["Response is not a PDF: "; declared])])
              else
                let filepath := os_path_join papers_dir (fmt [paper_id; ".pdf"]) in
                if disk_writable w then
                  (Ok (Some filepath),
                   [HttpGet address; WriteFile filepath content;
                    Log Info (fmt ["Downloaded PDF: "; filepath])])
                else if file_opens w then
                  (Raise OSError, [HttpGet address; BrokenWrite filepath])
                else (Raise OSError, [HttpGet address])
          end
      end
  end.

Definition download_pdf_if_available (w : fetch_world)
  (pdf_url : option string) (paper_id : string) : option string * list event :=
  if falsy pdf_url then (None, [])
  else
    let address := match pdf_url with Some u => u | None => "" end in
    match download_body w address paper_id with
    | (Ok filepath, evs) => (filepath, evs)
    | (Raise e, evs) =>
        (None, evs ++ [LogExn (fmt ["Error downloading PDF from "; address]) e])
    end.

(* ================================================================== *)
(** * Cache/Dedup Store: [Database] *)
(* ================================================================== *)

(** The integers SQLite stores are signed and 64 bits wide: binding any
    other [int] to a statement raises [OverflowError]. *)
Definition sqlite_integer (n : Z) : bool :=
  (-9223372036854775808 <=? n) && (n <=? 9223372036854775807).

(** The last second [datetime()] represents, 9999-12-31 23:59:59; a date
    shifted beyond it is NULL. *)
Definition sqlite_last_second : Z := 253402300799.

Section Store.

Variable md5_hexdigest : string -> string.

(** JSON text as kept in a TEXT column, with [json.dumps] and
    [json.loads] on lists of papers. *)
Variable json : Type.
Variable json_dumps : list paper -> json.
Variable json_loads : json -> result (list paper).

(** Table [search_cache]; times are seconds (UTC) since 1970, as
    CURRENT_TIMESTAMP and datetime('now') give them on a clock within the
    dates of SQLite. *)
Record cache_row : Type := {
  cache_id : Z;                (* INTEGER PRIMARY KEY AUTOINCREMENT *)
  query_hash : string;         (* TEXT UNIQUE NOT NULL              *)
  cached_query : string;
  cached_max_results : Z;
  cached_results : json;
  cache_created_at : Z         (* DEFAULT CURRENT_TIMESTAMP         *)
}.

(** Table [papers]. *)
Record paper_row : Type := {
  row_id : string;             (* TEXT PRIMARY KEY *)
  row_title : string;
  row_authors : string;
  row_year : option Z;
  row_snippet : string;
  row_url : option string;
  row_pdf_url : option string;
  row_citations : Z;
  row_abstract : option string;
  row_metadata : string;
  row_created_at : Z
}.

Record store : Type := {
  search_cache : list cache_row;
  search_cache_seq : Z;          (* last AUTOINCREMENT value handed out *)
  papers : list paper_row
}.

Definition _generate_query_hash (query : string) (max_results : Z) : string :=
  md5_hexdigest (fmt [strip (lower query); "_"; str_of_int max_results]).

(** [datetime(created_at, '+{} hours') > datetime('now')]; a negative
    count makes the modifier invalid, a shift beyond the last date of
    SQLite has no value, and in both cases the comparison is NULL. *)
Definition still_valid (cache_hours now : Z) (r : cache_row) : bool :=
  (0 <=? cache_hours)
  && (cache_created_at r + 3600 * cache_hours <=? sqlite_last_second)
  && (cache_created_at r + 3600 * cache_hours >? now).

(** [get_cached_search]; [reachable] tells whether the statements on the
    database go through. *)
Definition get_cached_search (reachable : bool) (now : Z) (db : store)
  (query : string) (max_results cache_hours : Z)
  : option (list paper) * list event :=
  if negb reachable then
    (None, [LogExn "Error getting cached search" SqliteError])
  else
    let h := _generate_query_hash query max_results in
    match find (fun r => String.eqb (query_hash r) h
                         && still_valid cache_hours now r)%bool
               (search_cache db) with
    | Some r =>
        let hit := Log Info (fmt ["Cache hit for query: "; query]) in
        match json_loads (cached_results r) with
        | Ok v => (Some v, [hit])
        | Raise e => (None, [hit; LogExn "Error getting cached search" e])
        end
    | None => (None, [])
    end.

(** INSERT OR REPLACE INTO search_cache: the row in conflict on
    [query_hash] goes, the new row takes the next id. A [max_results]
    that SQLite cannot store makes [execute] raise, and nothing is
    written. *)
Definition cache_search_results (reachable : bool) (now : Z) (db : store)
  (query : string) (max_results : Z) (results : list paper)
  : store * list event :=
  if negb reachable then
    (db, [LogExn "Error caching search results" SqliteError])
  else if negb (sqlite_integer max_results) then
    (db, [LogExn "Error caching search results" OverflowError])
  else
    let h := _generate_query_hash query max_results in
    let row := {| cache_id := search_cache_seq db + 1;
                  query_hash := h;
                  cached_query := query;
                  cached_max_results := max_results;
                  cached_results := json_dumps results;
                  cache_created_at := now |} in
    ({| search_cache :=
          filter (fun r => negb (String.eqb (query_hash r) h)) (search_cache db)
          ++ [row];
        search_cache_seq := search_cache_seq db + 1;
        papers := papers db |},
     [Log Info (fmt ["Cached search results for: "; query])]).

(** The row [save_paper] writes for a scraped paper: no abstract, and
    [json.dumps({})] for the metadata. *)
Definition row_of_paper (now : Z) (p : paper) : paper_row :=
  {| row_id := id p;
     row_title := title p;
     row_authors := authors p;
     row_year := year p;
     row_snippet := snippet p;
     row_url := url p;
     row_pdf_url := pdf_url p;
     row_citations := citations p;
     row_abstract := None;
     row_metadata := "{}";
     row_created_at := now |}.

(** The two INTEGER columns a paper fills: a [year] or a [citations]
    that SQLite cannot store makes [execute] raise. *)
Definition storable (p : paper) : bool :=
  match year p with
  | Some y => sqlite_integer y
  | None => true
  end && sqlite_integer (citations p).

(** INSERT OR REPLACE INTO papers: the row in conflict on [id] goes. *)
Definition save_paper (reachable : bool) (now : Z) (db : store) (p : paper)
  : store * list event :=
  if negb reachable then (db, [LogExn "Error saving paper" SqliteError])
  else if negb (storable p) then (db, [LogExn "Error saving paper" OverflowError])
  else
    ({| search_cache := search_cache db;
        search_cache_seq := search_cache_seq db;
        papers :=
          filter (fun r => negb (String.eqb (row_id r) (id p))) (papers db)
          ++ [row_of_paper now p] |},
     []).

(** SELECT * FROM papers WHERE id = ? *)
Definition select_paper (db : store) (paper_id : string) : list paper_row :=
  filter (fun r => String.eqb (row_id r) paper_id) (papers db).

(* ================================================================== *)
(** * The route [/api/search] *)
(* ================================================================== *)

(** The JSON body of the request, a key being there or not. *)
Record search_request : Type := {
  req_query : option string;
  req_max_results : option Z;
  req_year_range : option (Z * Z)
}.

(** What the route answers: [format_response] with status 200, or
    [jsonify({'error': ...})] with 400 or 500. *)
Inductive response : Type :=
| Success (papers : list paper) (from_cache : bool) (timestamp : string)
| BadRequest (error : string)
| ServerError (error : exn).

(** What the call meets outside the program. *)
Record search_world : Type := {
  db_readable : bool;
  db_writable : bool;
  db_clock : Z;
  browser : session;
  timestamp_now : string
}.

(** [if cached_results:] *)
Definition truthy (cached : option (list paper)) : bool :=
  match cached with
  | Some (_ :: _) => true
  | _ => false
  end.

Definition search_papers (fuel : nat) (w : search_world) (db : store)
  (req : search_request) : option (response * store * list event) :=
  let query := match req_query req with Some q => q | None => "" end in
  let max_results := match req_max_results req with Some n => n | None => 50 end in
  if String.eqb query "" then Some (BadRequest "Query is required", db, [])
  else
    let (cached, evs1) :=
      get_cached_search (db_readable w) (db_clock w) db query max_results 24 in
    if truthy cached then
      Some (Success (match cached with Some l => l | None => [] end) true
                    (timestamp_now w), db, evs1)
    else
      match scrape_papers md5_hexdigest fuel (browser w) query max_results
                          (req_year_range req) with
      | (OutOfFuel, _) => None
      | (Raised e, evs2) => Some (ServerError e, db, evs1 ++ evs2)
      | (Returned found, evs2) =>
          let (db', evs3) :=
            cache_search_results (db_writable w) (db_clock w) db query
                                 max_results found in
          Some (Success found false (timestamp_now w), db', evs1 ++ evs2 ++ evs3)
      end.

End Store.

Arguments Build_cache_row {json}.
Arguments cache_id {json}.
Arguments query_hash {json}.
Arguments cached_query {json}.
Arguments cached_max_results {json}.
Arguments cached_results {json}.
Arguments cache_created_at {json}.
Arguments Build_store {json}.
Arguments search_cache {json}.
Arguments search_cache_seq {json}.
Arguments papers {json}.
Arguments still_valid {json}.
Arguments get_cached_search md5_hexdigest {json}.
Arguments cache_search_results md5_hexdigest {json}.
Arguments save_paper {json}.
Arguments select_paper {json}.
Arguments search_papers md5_hexdigest {json}.

(* ================================================================== *)
(** * Vocabulary of the properties *)
(* ================================================================== *)

Section Vocabulary.

Variable md5_hexdigest : string -> string.

(** The papers a list of blocks extracts to, in order. *)
Definition extracted (result_elements : list result_element) : list paper :=
  flat_map (fun e => match _extract_paper_data md5_hexdigest e with
                     | Some p => [p]
                     | None => []
                     end) result_elements.

(** The papers the first [n] pages extract to, in order. *)
Definition harvest (pages : nat -> page) (n : nat) : list paper :=
  flat_map (fun i => extracted (gs_ri (pages i))) (seq 0 n).

(** Of [waited] pages waited for, the pages whose blocks the loop reads:
    all of them, but for the last one when it shows a challenge (the loop
    is left before [find_elements]). *)
Definition pages_read (pages : nat -> page) (waited : nat) : nat :=
  match waited with
  | O => O
  | S n => if _detect_captcha (page_markers (pages n)) then n else S n
  end.

(** A page with at least one block that extracts. *)
Definition productive (pg : page) : bool :=
  existsb (fun e => match _extract_paper_data md5_hexdigest e with
                    | Some _ => true
                    | None => false
                    end) (gs_ri pg).

(** [reaches pages max_results n papers tr]: the [while] loop comes to
    the test of its [n]-th pass holding [papers], having done [tr]. *)
Inductive reaches (pages : nat -> page) (max_results : Z)
  : nat -> list paper -> list event -> Prop :=
| reaches_first : reaches pages max_results 0 [] []
| reaches_next : forall n papers tr papers' evs,
    reaches pages max_results n papers tr ->
    len papers < max_results ->
    visit_page md5_hexdigest max_results n (pages n) papers = (Continue papers', evs) ->
    reaches pages max_results (S n) papers' (tr ++ evs).

End Vocabulary.

(** A row of [papers] that holds paper [p], written at [written_at]: each
    column bound in the INSERT carries the field of its name, [abstract]
    is NULL (a scraped paper has no such key), [metadata] is the JSON text
    of the empty dictionary, and [created_at] takes its default. *)
Definition row_holds (r : paper_row) (p : paper) (written_at : Z) : Prop :=
  row_id r = id p /\ row_title r = title p /\ row_authors r = authors p /\
  row_year r = year p /\ row_snippet r = snippet p /\ row_url r = url p /\
  row_pdf_url r = pdf_url p /\ row_citations r = citations p /\
  row_abstract r = None /\ row_metadata r = "{}" /\
  row_created_at r = written_at.

(** The pauses of a trace other than the random delay, in order. *)
Definition pauses (tr : list event) : list Z :=
  flat_map (fun e => match e with Sleep z => [z] | _ => [] end) tr.

(** The places where a trace polls the detection check, in order. *)
Definition polls (tr : list event) : list (option nat) :=
  flat_map (fun e => match e with DetectCaptcha w => [w] | _ => [] end) tr.

(** The result pages a trace waits for, in order. *)
Definition waits (tr : list event) : list nat :=
  flat_map (fun e => match e with WaitResults n => [n] | _ => [] end) tr.

(** A stretch of trace with no pause, no poll and no wait for results. *)
Definition quiet (evs : list event) : Prop :=
  pauses evs = [] /\ polls evs = [] /\ waits evs = [].

(** What a trace does once the query is submitted. *)
Fixpoint after_submit (tr : list event) : list event :=
  match tr with
  | [] => []
  | Submit :: rest => rest
  | _ :: rest => after_submit rest
  end.

(** The first segment of a detail line the year loop breaks at. *)
Definition first_year_segment (authors_text : string) : option string :=
  find (fun part => year_like (filter_chars isdigit part))
       (str_split " - " authors_text).

(* ------------------------------------------------------------------ *)
(** ** Worked inputs *)
(* ------------------------------------------------------------------ *)

(** A stand-in digest for the worked examples; none depends on its values
    beyond equal titles having equal digests. *)
Definition toy_digest (s : string) : string := fmt ["md5("; s; ")"].

Definition no_markers : markers :=
  {| g_recaptcha := false; recaptcha_iframe := false; unusual_traffic := false |}.

Definition widget_marker : markers :=
  {| g_recaptcha := true; recaptcha_iframe := false; unusual_traffic := false |}.

(** A complete block. *)
Definition block (title_text detail : string) : result_element :=
  {| gs_rt_a := Some {| anchor_text := title_text;
                        anchor_href := Some "https://example.org/paper" |};
     gs_a := Some detail;
     gs_rs := Some "We study the problem ...";
     cited_by := Some "Cited by 12";
     gs_or_ggsm_a := Some {| anchor_text := "[PDF] example.org";
                             anchor_href := Some "https://example.org/paper.pdf" |};
     clock := "2024-05-01T10:00:00" |}.

(** The same block with no [.gs_rs] snippet. *)
Definition block_without_snippet : result_element :=
  {| gs_rt_a := Some {| anchor_text := "Deep Learning";
                        anchor_href := Some "https://example.org/paper" |};
     gs_a := Some "Y LeCun, Y Bengio, G Hinton - nature, 2015 - nature.com";
     gs_rs := None;
     cited_by := Some "Cited by 12";
     gs_or_ggsm_a := None;
     clock := "2024-05-01T10:00:00" |}.

(** A volume and issue before the year, as Scholar prints them. *)
Definition block_with_volume : result_element :=
  block "Learning representations" "J Smith - Nature 12(3), 1999 - nature.com".

(** An identifier and a report number in the detail line: the digits of
    the segment, joined, are 22 digits long. *)
Definition block_with_long_number : result_element :=
  block "Learning at scale" "X Li - arXiv:2019.10101, 6201901001234 - arxiv.org".

Definition enabled_next : option (option string) := Some (Some "gs_btn_lrb").

Definition page_of (blocks : list result_element)
  (next : option (option string)) : page :=
  {| gs_ri_appears := true; page_markers := no_markers;
     gs_ri := blocks; next_button := next |}.

Definition session_of (pages : nat -> page) : session :=
  {| driver_starts := true; setup_error := WebDriverException;
     landing := no_markers; search_box_appears := true; results := pages |}.

(** Every page holds one block that fails to extract, and a live [Next]. *)
Definition barren_session : session :=
  session_of (fun _ => page_of [block_without_snippet] enabled_next).

(** Every page holds one block that extracts, and a live [Next]. *)
Definition endless_session : session :=
  session_of (fun _ => page_of [block "Deep Learning" "Y LeCun - nature, 2015 - nature.com"]
                               enabled_next).

(** One page, two blocks whose titles agree once stripped. *)
Definition twin_session : session :=
  session_of (fun _ =>
    page_of [block "Deep Learning" "Y LeCun - nature, 2015 - nature.com";
             block "  Deep Learning " "Y LeCun, Y Bengio - Nature, 2015 - nature.com"]
            None).

(** A first page that extracts, then a page that never renders. *)
Definition stalling_session : session :=
  session_of (fun n =>
    match n with
    | O => page_of [block "Deep Learning" "Y LeCun - nature, 2015 - nature.com"]
                   enabled_next
    | _ => {| gs_ri_appears := false; page_markers := no_markers;
              gs_ri := []; next_button := None |}
    end).

(** A first page that extracts, then a page showing a challenge. *)
Definition challenged_session : session :=
  session_of (fun n =>
    match n with
    | O => page_of [block "Deep Learning" "Y LeCun - nature, 2015 - nature.com"]
                   enabled_next
    | _ => {| gs_ri_appears := true; page_markers := widget_marker;
              gs_ri := [block "Later" "A Author - venue, 2020 - site.org"];
              next_button := enabled_next |}
    end).

(** What the block titled "Deep Learning" extracts to under [toy_digest]. *)
Definition deep_learning : paper :=
  {| title := "Deep Learning";
     url := Some "https://example.org/paper";
     authors := "Y LeCun";
     year := Some 2015;
     snippet := "We study the problem ...";
     citations := 12;
     pdf_url := Some "https://example.org/paper.pdf";
     scraped_at := "2024-05-01T10:00:00";
     id := "md5(Deep Learning)" |}.

(** The same paper scraped again later, with more citations. *)
Definition deep_learning_later : paper :=
  {| title := "Deep Learning";
     url := Some "https://example.org/paper";
     authors := "Y LeCun";
     year := Some 2015;
     snippet := "We study the problem ...";
     citations := 40;
     pdf_url := Some "https://example.org/paper.pdf";
     scraped_at := "2024-06-01T10:00:00";
     id := "md5(Deep Learning)" |}.

(** A stand-in for JSON text in the worked examples: the value itself. *)
Definition toy_dumps (results : list paper) : list paper := results.
Definition toy_loads (text : list paper) : result (list paper) := Ok text.

Definition empty_store : store (list paper) :=
  {| search_cache := []; search_cache_seq := 0; papers := [] |}.

(** One page with one block, then nothing more to click. *)
Definition single_page_session : session :=
  session_of (fun _ =>
    page_of [block "Deep Learning" "Y LeCun - nature, 2015 - nature.com"] None).

(** A search with the database readable, and writable or not. *)
Definition world (writable : bool) : search_world :=
  {| db_readable := true; db_writable := writable; db_clock := 1714557600;
     browser := single_page_session; timestamp_now := "2024-05-01T10:00:05" |}.

Definition deep_learning_request : search_request :=
  {| req_query := Some "deep learning"; req_max_results := Some 10;
     req_year_range := None |}.

(** A server that answers 304 and declares a PDF. *)
Definition not_modified_world : fetch_world :=
  {| ua_random := Some "Mozilla/5.0";
     reply := Reply 304 (Some "application/pdf") "%PDF-1.4";
     disk_writable := true; file_opens := true |}.

(** A server that answers 200 with a PDF. *)
Definition pdf_world : fetch_world :=
  {| ua_random := Some "Mozilla/5.0";
     reply := Reply 200 (Some "application/pdf") "%PDF-1.4";
     disk_writable := true; file_opens := true |}.

(** The same server, and a disk that fills up during the write. *)
Definition full_disk_world : fetch_world :=
  {| ua_random := Some "Mozilla/5.0";
     reply := Reply 200 (Some "application/pdf") "%PDF-1.4";
     disk_writable := false; file_opens := true |}.

(** A server that answers 404. *)
Definition not_found_world : fetch_world :=
  {| ua_random := Some "Mozilla/5.0";
     reply := Reply 404 (Some "application/pdf") "";
     disk_writable := true; file_opens := true |}.

(* ================================================================== *)
(** * [extract_abstract_from_link] *)
(* ================================================================== *)

(** The selectors tried on a publisher's page, in this order. *)
Definition abstract_selectors : list string :=
  [".abstract"; "#abstract"; ".section-title:contains('Abstract') + *";
   "[data-testid='abstract']"; ".c-article-section__content";
   ".abstract-content"].

(** What the call meets: whether Chrome starts, whether [driver.get]
    goes through, and what [find_element] answers for a selector: the
    text of the element, or the exception raised. *)
Record publisher_page : Type := {
  chrome_starts : bool;
  page_loads : bool;
  select : string -> result string
}.

(** The [for selector in abstract_selectors] loop: the first element with
    text left after stripping is the answer; [NoSuchElementException]
    moves on to the next selector, any other exception leaves the loop. *)
Fixpoint first_abstract (find : string -> result string)
  (selectors : list string) : result (option string) :=
  match selectors with
  | [] => Ok None
  | selector :: rest =>
      match find selector with
      | Ok text =>
          if String.eqb (strip text) "" then first_abstract find rest
          else Ok (Some (strip text))
      | Raise NoSuchElementException => first_abstract find rest
      | Raise e => Raise e
      end
  end.

(** How the call ends: with a value, or with the UnboundLocalError the
    [finally] clause raises on [if driver:] when [driver] was never
    assigned. *)
Inductive abstract_outcome : Type :=
| Abstract (found : option string)
| UnboundLocalError.

Definition extract_abstract_from_link (w : publisher_page) (paper_url : string)
  : abstract_outcome * list event :=
  let failed := LogExn (fmt ["Error extracting abstract from "; paper_url]) in
  if negb (chrome_starts w) then (UnboundLocalError, [failed WebDriverException])
  else if negb (page_loads w) then
    (Abstract None, [Get paper_url; failed WebDriverException; Quit])
  else
    match first_abstract (select w) abstract_selectors with
    | Ok found => (Abstract found, [Get paper_url; RandomDelay; Quit])
    | Raise e => (Abstract None, [Get paper_url; RandomDelay; failed e; Quit])
    end.

(* ================================================================== *)
(** * [Database.cleanup_old_cache] *)
(* ================================================================== *)

(** [created_at < datetime('now', '-{} days')]; a negative count makes the
    modifier invalid and the comparison NULL. *)
Definition older_than {json : Type} (days now : Z) (r : cache_row json) : bool :=
  (0 <=? days) && (cache_created_at r <? now - 86400 * days).

(** [cleanup_old_cache]: the rows deleted are counted by
    [cursor.rowcount]; on an exception the answer is 0. *)
Definition cleanup_old_cache {json : Type} (reachable : bool) (now : Z)
  (db : store json) (days : Z) : Z * store json * list event :=
  if negb reachable then
    (0, db, [LogExn "Error cleaning up cache" SqliteError])
  else
    let kept := filter (fun r => negb (older_than days now r)) (search_cache db) in
    let deleted_count := len (search_cache db) - len kept in
    (deleted_count,
     {| search_cache := kept;
        search_cache_seq := search_cache_seq db;
        papers := papers db |},
     [Log Info (fmt ["Cleaned up "; str_of_int deleted_count; " old cache entries"])]).

(** The constraints of the schema: [query_hash] UNIQUE, the two PRIMARY
    KEYs, and ids handed out below the AUTOINCREMENT counter. *)
Definition constraints_hold {json : Type} (db : store json) : Prop :=
  NoDup (map query_hash (search_cache db)) /\
  NoDup (map cache_id (search_cache db)) /\
  (forall r, In r (search_cache db) -> cache_id r <= search_cache_seq db) /\
  NoDup (map row_id (papers db)).

(* ================================================================== *)
(** * The route [/api/download-pdf/<paper_id>] *)
(* ================================================================== *)

(** The body of the request as the route reads it: [Unreadable e] when
    [request.get_json()] or [data.get] raises [e] (a body that is not
    JSON, or JSON that is not an object), otherwise the object with its
    'pdf_url', a string, if it has one. *)
Inductive download_request : Type :=
| Unreadable (e : exn)
| Body (req_pdf_url : option string).

(** What the route answers. *)
Inductive download_response : Type :=
| Downloaded (abstract : option string) (filepath : string)     (* 200 *)
| DownloadRefused (error : string)                               (* 400 *)
| DownloadCrashed (error : exn).                                 (* 500 *)

(** [download_pdf]; [extract_abstract] stands for
    [pdf_processor.extract_abstract] on the file just written. *)
Definition download_pdf (w : fetch_world)
  (extract_abstract : string -> result (option string))
  (req : download_request) (paper_id : string)
  : download_response * list event :=
  match req with
  | Unreadable e => (DownloadCrashed e, [])
  | Body req_pdf_url =>
      let address := match req_pdf_url with Some u => u | None => "" end in
      if String.eqb address "" then (DownloadRefused "PDF URL is required", [])
      else
        let (filepath, evs) :=
          download_pdf_if_available w (Some address) paper_id in
        match filepath with
        | Some path =>
            if String.eqb path "" then
              (DownloadRefused "Failed to download PDF", evs)
            else
              match extract_abstract path with
              | Ok abstract => (Downloaded abstract path, evs)
              | Raise e => (DownloadCrashed e, evs)
              end
        | None => (DownloadRefused "Failed to download PDF", evs)
        end
  end.

(* ================================================================== *)
(** * [utils/api_helpers.py]: [paginate_results], [sanitize_input] *)
(* ================================================================== *)

(** A slice bound brought into range, as Python does for [l[a:b]]. *)
Definition slice_bound (n i : Z) : Z :=
  if i <? 0 then Z.max (i + n) 0 else Z.min i n.

(** [l[start:stop]] *)
Definition py_slice {A : Type} (l : list A) (start stop : Z) : list A :=
  let a := slice_bound (len l) start in
  let b := slice_bound (len l) stop in
  firstn (Z.to_nat (b - a)) (skipn (Z.to_nat a) l).

(** The dictionary under the key 'pagination'. *)
Record pagination : Type := {
  pg_page : Z;
  pg_per_page : Z;
  pg_total : Z;
  pg_pages : Z;
  pg_has_next : bool;
  pg_has_prev : bool
}.

(** [paginate_results]: with [per_page] 0 the page count divides by zero
    and the [except] branch answers the whole data with no pagination. *)
Definition paginate_results {A : Type} (data : list A) (page per_page : Z)
  : list A * option pagination :=
  let page := Z.max 1 page in
  let start := (page - 1) * per_page in
  let stop := start + per_page in
  let paginated_data := py_slice data start stop in
  if per_page =? 0 then (data, None)
  else
    (paginated_data,
     Some {| pg_page := page;
             pg_per_page := per_page;
             pg_total := len data;
             pg_pages := (len data + per_page - 1) / per_page;
             pg_has_next := stop <? len data;
             pg_has_prev := page >? 1 |}).

(** [re.sub(r'<[^>]+>', '', text)]: at a '<' followed by a character
    other than '>' and, further on, by a '>', everything up to the first
    '>' goes; [inside] tells that such a tag is being passed over. *)
Fixpoint remove_tags (inside : bool) (s : string) : string :=
  match s with
  | EmptyString => EmptyString
  | String c r =>
      if inside then
        if Ascii.eqb c ">" then remove_tags false r else remove_tags true r
      else if (Ascii.eqb c "<"
               && negb (startswith ">" r) && contains ">" r)%bool
      then remove_tags true r
      else String c (remove_tags false r)
  end.

(** The four characters of the class in the second [re.sub]: the angle
    brackets, the double quote (code 34) and the single quote. *)
Definition dangerous (c : ascii) : bool :=
  (Ascii.eqb c "<" || Ascii.eqb c ">" || Nat.eqb (code c) 34
   || Ascii.eqb c "'")%bool.

(** [text[:stop]] on a string. *)
Definition str_upto (s : string) (stop : Z) : string :=
  string_of_list_ascii (py_slice (list_ascii_of_string s) 0 stop).

Definition sanitize_input (text : string) (max_length : Z) : string :=
  if String.eqb text "" then ""
  else
    let text := remove_tags false text in
    let text := filter_chars (fun c => negb (dangerous c)) text in
    let text :=
      if Z.of_nat (String.length text) >? max_length
      then str_upto text max_length else text in
    strip text.

(* ================================================================== *)
(** * Vocabulary of the further properties *)
(* ================================================================== *)

(** What makes the browser go to another page. *)
Definition navigates (e : event) : bool :=
  match e with
  | Get _ | Submit | ClickNext _ => true
  | _ => false
  end.

(** Every navigation of a trace is followed at once by the random delay. *)
Fixpoint paced (tr : list event) : bool :=
  match tr with
  | [] => true
  | e :: rest =>
      (if navigates e
       then match rest with RandomDelay :: _ => true | _ => false end
       else true) && paced rest
  end.

(** The number of calls of [driver.quit] in a trace. *)
Definition quits (tr : list event) : nat :=
  List.length (filter (fun e => match e with Quit => true | _ => false end) tr).

(** The number of calls of [session.get] in a trace (one call may follow
    several redirects). *)
Definition fetches (tr : list event) : nat :=
  List.length (filter (fun e => match e with HttpGet _ => true | _ => false end) tr).

(** The files a trace writes in full, with what they hold. *)
Definition written (tr : list event) : list (string * string) :=
  flat_map (fun e => match e with WriteFile p c => [(p, c)] | _ => [] end) tr.

(** The files a trace opens for writing and fails to fill: what they held
    before is lost. *)
Definition spoiled (tr : list event) : list string :=
  flat_map (fun e => match e with BrokenWrite p => [p] | _ => [] end) tr.

(** A page in order: it renders, shows no challenge, holds a block that
    extracts, and has a live [Next] link. *)
Definition in_order (md5_hexdigest : string -> string) (pg : page) : bool :=
  (gs_ri_appears pg && negb (_detect_captcha (page_markers pg))
   && productive md5_hexdigest pg
   && match next_button pg with
      | Some (Some class) => negb (contains "disabled" class)
      | _ => false
      end)%bool.

(** Every character of a string passes a test. *)
Fixpoint all_chars (test : ascii -> bool) (s : string) : bool :=
  match s with
  | EmptyString => true
  | String c r => (test c && all_chars test r)%bool
  end.

(** A character outside the class of the second [re.sub] of
    [sanitize_input]. *)
Definition harmless (c : ascii) : bool := negb (dangerous c).

(** No network when [ChromeDriverManager().install()] fetches the driver:
    [_setup_driver] raises an exception of [requests]. *)
Definition offline_session : session :=
  {| driver_starts := false; setup_error := RequestException;
     landing := no_markers; search_box_appears := true;
     results := results stalling_session |}.

(** A publisher's page whose first selector finds a blank element and
    whose second finds the abstract. *)
Definition springer_page : publisher_page :=
  {| chrome_starts := true; page_loads := true;
     select := fun selector =>
       if String.eqb selector ".abstract" then Ok "   "
       else if String.eqb selector "#abstract" then Ok " We prove a bound. "
       else Raise NoSuchElementException |}.

(* ================================================================== *)
(** * Properties of the Result Extractor *)
(* ================================================================== *)

Lemma any_char_false_filter (pred : ascii -> bool) (s : string) :
  any_char pred s = false -> filter_chars pred s = EmptyString.
Proof.
  induction s as [|c r IH]; simpl; [reflexivity|].
  destruct (pred c); simpl; [discriminate|exact IH].
Qed.

Lemma year_like_has_digit (part : string) :
  year_like (filter_chars isdigit part) = true -> any_char isdigit part = true.
Proof.
  intro H. destruct (any_char isdigit part) eqn:E; [reflexivity|].
  rewrite (any_char_false_filter _ _ E) in H. discriminate H.
Qed.

Lemma scan_year_breaks_at_first (parts : list string) :
  forall (seen : option string) (seg : string),
    find (fun part => year_like (filter_chars isdigit part)) parts = Some seg ->
    scan_year parts seen = Some (filter_chars isdigit seg).
Proof.
  induction parts as [|part rest IH]; intros seen seg Hfind; simpl in *.
  - discriminate.
  - destruct (year_like (filter_chars isdigit part)) eqn:Hy.
    + injection Hfind as <-.
      rewrite (year_like_has_digit _ Hy). reflexivity.
    + destruct (any_char isdigit part); auto.
Qed.

Lemma scan_year_without_digits (parts : list string) :
  forall seen : option string,
    (forall part, In part parts -> any_char isdigit part = false) ->
    scan_year parts seen = seen.
Proof.
  induction parts as [|part rest IH]; intros seen Hnone; simpl.
  - reflexivity.
  - rewrite (Hnone part (or_introl eq_refl)).
    apply IH. intros q Hq. apply Hnone. right. exact Hq.
Qed.

Lemma digit_value_range (c : ascii) :
  isdecimal c = true -> 0 <= digit_value c <= 9.
Proof.
  unfold isdecimal, between, digit_value. intro H.
  apply andb_true_iff in H. destruct H as [Hlo Hhi].
  apply Nat.leb_le in Hlo. apply Nat.leb_le in Hhi. lia.
Qed.

Lemma int_digits_step (acc : Z) (c : ascii) (r : string) :
  isdecimal c = true ->
  int_digits acc (String c r) = int_digits (10 * acc + digit_value c) r.
Proof. intro H. cbn [int_digits]. rewrite H. reflexivity. Qed.

Lemma year_like_value (ym : string) (y : Z) :
  year_like ym = true -> python_int ym = Ok y -> 2000 <= y <= 2099.
Proof.
  unfold year_like. intro H. apply andb_true_iff in H. destruct H as [Hlen Hpre].
  apply Nat.eqb_eq in Hlen.
  destruct ym as [|a [|b [|c [|d [|? ?]]]]]; simpl in Hlen; try discriminate.
  cbn [startswith] in Hpre.
  apply andb_true_iff in Hpre. destruct Hpre as [Ha Hb].
  apply andb_true_iff in Hb. destruct Hb as [Hb _].
  apply Ascii.eqb_eq in Ha. apply Ascii.eqb_eq in Hb. subst a b.
  unfold python_int.
  rewrite (int_digits_step 0 "2" _ eq_refl).
  rewrite (int_digits_step _ "0" _ eq_refl).
  change (digit_value "2") with 2. change (digit_value "0") with 0.
  destruct (isdecimal c) eqn:Hc;
    [rewrite (int_digits_step _ _ _ Hc)|cbn [int_digits]; rewrite Hc; discriminate].
  destruct (isdecimal d) eqn:Hd;
    [rewrite (int_digits_step _ _ _ Hd)|cbn [int_digits]; rewrite Hd; discriminate].
  pose proof (digit_value_range _ Hc) as Rc.
  pose proof (digit_value_range _ Hd) as Rd.
  cbn [int_digits]. intro Hy.
  assert (Hv : y = 10 * (10 * (10 * (10 * 0 + 2) + 0) + digit_value c) + digit_value d)
    by congruence.
  lia.
Qed.

(** What [extract_fields] reads when it succeeds. *)
Lemma extract_fields_ok (md5 : string -> string) (e : result_element) (p : paper) :
  extract_fields md5 e = Ok p ->
  exists a detail body,
    gs_rt_a e = Some a /\ gs_a e = Some detail /\ gs_rs e = Some body /\
    title p = strip (anchor_text a) /\
    id p = md5 (title p) /\
    extract_year detail = Ok (year p) /\
    extract_citations e = Ok (citations p) /\
    extract_pdf_url e = Ok (pdf_url p).
Proof.
  unfold extract_fields. intro H.
  destruct (gs_rt_a e) as [a|]; [|discriminate].
  destruct (gs_a e) as [detail|]; [|discriminate].
  cbn [find_element bind] in H.
  destruct (extract_year detail) as [y|] eqn:Hy; [|discriminate].
  cbn [bind] in H.
  destruct (gs_rs e) as [body|]; [|discriminate].
  cbn [find_element bind] in H.
  destruct (extract_citations e) as [c|] eqn:Hc; [|discriminate].
  cbn [bind] in H.
  destruct (extract_pdf_url e) as [u|] eqn:Hu; [|discriminate].
  cbn [bind] in H. injection H as <-.
  exists a, detail, body. cbn. repeat split; trivial.
Qed.

Lemma _extract_paper_data_some (md5 : string -> string) (e : result_element) (p : paper) :
  _extract_paper_data md5 e = Some p -> extract_fields md5 e = Ok p.
Proof.
  unfold _extract_paper_data.
  destruct (extract_fields md5 e); intro H; [injection H as ->; reflexivity|discriminate].
Qed.

(** C3 (as amended). The year loop walks the segments of the detail line
    cut at " - ", in order, and stops at the first one whose digits, put
    together, are four characters starting with "20": the year of an
    extracted paper is then that number, between 2000 and 2099. When no
    segment holds a digit the year is null. *)
Theorem year_of_extracted_paper :
  forall (md5 : string -> string) (e : result_element) (p : paper) (detail : string),
    _extract_paper_data md5 e = Some p ->
    gs_a e = Some detail ->
    (forall seg, first_year_segment detail = Some seg ->
       exists y, year p = Some y /\
                 python_int (filter_chars isdigit seg) = Ok y /\
                 2000 <= y <= 2099) /\
    ((forall part, In part (str_split " - " detail) ->
                   any_char isdigit part = false) ->
     year p = None).
Proof.
  intros md5 e p detail Hsome Hdetail.
  apply _extract_paper_data_some in Hsome.
  destruct (extract_fields_ok _ _ _ Hsome)
    as (a & detail' & body & _ & Hd & _ & _ & _ & Hyear & _).
  rewrite Hdetail in Hd. injection Hd as <-.
  unfold extract_year in Hyear. split.
  - intros seg Hseg. unfold first_year_segment in Hseg.
    pose proof (find_some _ _ Hseg) as [_ Hlike].
    rewrite (scan_year_breaks_at_first _ None _ Hseg) in Hyear.
    unfold year_of_match in Hyear.
    destruct (filter_chars isdigit seg) as [|c r] eqn:Hym; [discriminate Hlike|].
    destruct (python_int (String c r)) as [y|] eqn:Hint; [|discriminate].
    cbn [bind] in Hyear. injection Hyear as Hyear.
    exists y. repeat split; auto; apply (year_like_value _ _ Hlike Hint).
  - intro Hnone.
    rewrite (scan_year_without_digits _ None Hnone) in Hyear.
    cbn in Hyear. injection Hyear as Hyear. symmetry. exact Hyear.
Qed.

(** The year loop at work: a detail line with a year of this century,
    and one with no digit at all. *)
Lemma year_of_extracted_paper_witness :
  (exists y, year deep_learning = Some y /\
             python_int (filter_chars isdigit "nature, 2015") = Ok y /\
             2000 <= y <= 2099) /\
  option_map year
    (_extract_paper_data toy_digest (block "Deep Learning" "Y LeCun - nature"))
  = Some None.
Proof.
  split.
  - apply (proj1 (year_of_extracted_paper toy_digest
                    (block "Deep Learning" "Y LeCun - nature, 2015 - nature.com")
                    deep_learning "Y LeCun - nature, 2015 - nature.com"
                    eq_refl eq_refl)
                 "nature, 2015").
    reflexivity.
  - destruct (_extract_paper_data toy_digest (block "Deep Learning" "Y LeCun - nature"))
      as [p|] eqn:Hp; [|discriminate Hp].
    cbn [option_map]. f_equal.
    apply (proj2 (year_of_extracted_paper toy_digest
                    (block "Deep Learning" "Y LeCun - nature") p "Y LeCun - nature"
                    Hp eq_refl)).
    intros part [<-|[<-|[]]]; reflexivity.
Defined.

(** C3, the claim as written fails: a volume and an issue number before
    the year give a seven-digit year. *)
Lemma year_is_not_always_four_digits :
  option_map year (_extract_paper_data toy_digest block_with_volume)
  = Some (Some 1231999).
Proof. vm_compute. reflexivity. Qed.

(** A year of the last century is never what stops the loop: it is kept
    only where no later segment holds a digit. *)
Example year_1999_overwritten :
  extract_year "J Smith - Nature, 1999 - books4u.com" = Ok (Some 4).
Proof. vm_compute. reflexivity. Qed.

(** C4: a block with its title and its detail line, but without a
    snippet, does not extract: [find_element] raises where the code
    reads [if snippet_elem else ""]. *)
Theorem missing_snippet_fails :
  forall md5 : string -> string,
    gs_rt_a block_without_snippet <> None /\
    gs_a block_without_snippet <> None /\
    _extract_paper_data md5 block_without_snippet = None.
Proof. intro md5. repeat split; discriminate. Qed.

(** The same block extracts once a snippet is there; without a citation
    link it counts 0 citations, without a PDF link it has no [pdf_url]. *)
Lemma optional_links_default (md5 : string -> string) (e : result_element) (p : paper) :
  _extract_paper_data md5 e = Some p ->
  (cited_by e = None -> citations p = 0) /\
  (gs_or_ggsm_a e = None -> pdf_url p = None).
Proof.
  intro H. apply _extract_paper_data_some in H.
  destruct (extract_fields_ok _ _ _ H) as (a & d & b & _ & _ & _ & _ & _ & _ & Hc & Hu).
  split; intro Habsent.
  - unfold extract_citations in Hc. rewrite Habsent in Hc. cbn in Hc. congruence.
  - unfold extract_pdf_url in Hu. rewrite Habsent in Hu. cbn in Hu. congruence.
Qed.

(** All the ways a block is lost: the title link, the detail line or the
    snippet is not there, or a digit string does not convert. *)
Lemma _extract_paper_data_none (md5 : string -> string) (e : result_element) :
  _extract_paper_data md5 e = None <->
  gs_rt_a e = None \/ gs_a e = None \/ gs_rs e = None \/
  (exists detail x, gs_a e = Some detail /\ extract_year detail = Raise x) \/
  (exists x, extract_citations e = Raise x).
Proof.
  unfold _extract_paper_data, extract_fields.
  destruct (gs_rt_a e) as [a|]; cbn [find_element bind]; [|tauto].
  destruct (gs_a e) as [detail|]; cbn [find_element bind]; [|tauto].
  destruct (extract_year detail) as [y|x] eqn:Hy; cbn [bind].
  - destruct (gs_rs e) as [body|]; cbn [find_element bind]; [|tauto].
    destruct (extract_citations e) as [c|x] eqn:Hc; cbn [bind].
    + assert (Hu : exists u, extract_pdf_url e = Ok u).
      { unfold extract_pdf_url.
        destruct (gs_or_ggsm_a e); cbn [find_element]; eexists; reflexivity. }
      destruct Hu as [u ->]. cbn [bind]. split; [discriminate|].
      intros [H|[H|[H|[(d & x & H & Hx)|(x & H)]]]]; try discriminate.
      injection H as <-. congruence.
    + split; [|reflexivity]. intros _. do 4 right. exists x. reflexivity.
  - split; [|reflexivity]. intros _. do 3 right. left.
    exists detail, x. split; [reflexivity|exact Hy].
Qed.

(** When no segment stops the year loop, what is left in [year_match] is
    the digit string of the last segment that holds a digit. *)
Lemma scan_year_falls_through (parts : list string) :
  forall seen : option string,
    (forall part, In part parts -> year_like (filter_chars isdigit part) = false) ->
    scan_year parts seen
    = fold_left (fun kept part => if any_char isdigit part
                                  then Some (filter_chars isdigit part) else kept)
                parts seen.
Proof.
  induction parts as [|part rest IH]; intros seen Hnone; cbn [scan_year fold_left].
  - reflexivity.
  - rewrite (Hnone part (or_introl eq_refl)).
    destruct (any_char isdigit part); apply IH;
      intros q Hq; apply Hnone; right; exact Hq.
Qed.

(** A link "Cited by" with no number in it also loses the block. *)
Example citation_link_without_number :
  _extract_paper_data toy_digest
    {| gs_rt_a := gs_rt_a block_with_volume; gs_a := gs_a block_with_volume;
       gs_rs := gs_rs block_with_volume; cited_by := Some "Cited by";
       gs_or_ggsm_a := None; clock := "" |} = None.
Proof. vm_compute. reflexivity. Qed.

(* ================================================================== *)
(** * Properties of the Pagination Driver *)
(* ================================================================== *)

Lemma quiet_app (a b : list event) : quiet a -> quiet b -> quiet (a ++ b).
Proof.
  unfold quiet, pauses, polls, waits.
  intros (Ha1 & Ha2 & Ha3) (Hb1 & Hb2 & Hb3).
  rewrite !flat_map_app, Ha1, Ha2, Ha3, Hb1, Hb2, Hb3. repeat split.
Qed.

Lemma pauses_app (a b : list event) : pauses (a ++ b) = pauses a ++ pauses b.
Proof. apply flat_map_app. Qed.

Lemma polls_app (a b : list event) : polls (a ++ b) = polls a ++ polls b.
Proof. apply flat_map_app. Qed.

Lemma waits_app (a b : list event) : waits (a ++ b) = waits a ++ waits b.
Proof. apply flat_map_app. Qed.

Lemma len_app (A : Type) (a b : list A) : len (a ++ b) = len a + len b.
Proof. unfold len. rewrite length_app. lia. Qed.

Lemma len_nonneg (A : Type) (a : list A) : 0 <= len a.
Proof. unfold len. lia. Qed.

Section DriverFacts.

Variable md5 : string -> string.

Lemma extraction_log_quiet (e : result_element) : quiet (extraction_log md5 e).
Proof.
  unfold extraction_log. destruct (extract_fields md5 e); repeat split.
Qed.

Lemma extract_results_quiet (es : list result_element) :
  forall (M : Z) (ps : list paper), quiet (snd (extract_results md5 M ps es)).
Proof.
  induction es as [|e rest IH]; intros M ps; cbn [extract_results].
  - repeat split.
  - destruct (len ps >=? M); [repeat split|].
    match goal with
    | |- context [extract_results md5 M ?q rest] =>
        specialize (IH M q); destruct (extract_results md5 M q rest) as [final evs]
    end.
    cbn [snd] in *. apply quiet_app; [apply extraction_log_quiet|exact IH].
Qed.

(** The [for] loop appends, in order, what the blocks extract to, as far
    as the quota leaves room; it drops nothing else. *)
Lemma extract_results_papers (es : list result_element) :
  forall (M : Z) (ps : list paper),
    fst (extract_results md5 M ps es)
    = ps ++ firstn (Z.to_nat (M - len ps)) (extracted md5 es).
Proof.
  induction es as [|e rest IH]; intros M ps; cbn [extract_results].
  - cbn. rewrite firstn_nil, app_nil_r. reflexivity.
  - rewrite Z.geb_leb. destruct (Z.leb_spec M (len ps)) as [Hfull|Hroom].
    + cbn [fst]. replace (Z.to_nat (M - len ps)) with 0%nat by lia.
      cbn. rewrite app_nil_r. reflexivity.
    + match goal with
      | |- context [extract_results md5 M ?q rest] =>
          specialize (IH M q); destruct (extract_results md5 M q rest) as [final evs]
      end.
      cbn [fst] in *. rewrite IH. unfold extracted. cbn [flat_map].
      destruct (_extract_paper_data md5 e) as [p|].
      * rewrite len_app. change (len [p]) with 1.
        replace (Z.to_nat (M - len ps)) with (S (Z.to_nat (M - (len ps + 1)))) by lia.
        cbn [app firstn]. rewrite <- app_assoc. reflexivity.
      * reflexivity.
Qed.

(** A block that fails to extract is passed over: the blocks after it on
    the page are extracted as if it were not there. *)
Lemma failed_block_is_skipped (M : Z) (ps : list paper) (e : result_element)
  (rest : list result_element) :
  _extract_paper_data md5 e = None ->
  fst (extract_results md5 M ps (e :: rest)) = fst (extract_results md5 M ps rest).
Proof.
  intro Hfail. rewrite !extract_results_papers. unfold extracted.
  cbn [flat_map]. rewrite Hfail. reflexivity.
Qed.

(** The ways one pass of the loop can go. *)
Lemma visit_page_cases (M : Z) (n : nat) (pg : page) (ps : list paper) :
  (gs_ri_appears pg = false /\
   visit_page md5 M n pg ps = (Throw TimeoutException, [WaitResults n]))
  \/
  (gs_ri_appears pg = true /\ _detect_captcha (page_markers pg) = true /\
   visit_page md5 M n pg ps
   = (Break ps, [WaitResults n; DetectCaptcha (Some n);
                 Log Warning "CAPTCHA detected during scraping"]))
  \/
  (gs_ri_appears pg = true /\ _detect_captcha (page_markers pg) = false /\
   exists ctl evs,
     visit_page md5 M n pg ps
     = (ctl, [WaitResults n; DetectCaptcha (Some n)] ++ evs) /\
     quiet evs /\
     let ps' := fst (extract_results md5 M ps (gs_ri pg)) in
     ctl = Throw TypeError \/ ctl = Break ps' \/ ctl = Continue ps').
Proof.
  unfold visit_page.
  destruct (gs_ri_appears pg); cbn [negb]; [|left; auto].
  destruct (_detect_captcha (page_markers pg)); [right; left; auto|].
  right; right. do 2 (split; [reflexivity|]).
  destruct (gs_ri pg) as [|e rest] eqn:Hblocks.
  - eexists; eexists. split; [reflexivity|]. split; [repeat split|].
    right; left. reflexivity.
  - pose proof (extract_results_quiet (e :: rest) M ps) as Hq.
    destruct (extract_results md5 M ps (e :: rest)) as [ps' logged].
    cbn [fst snd] in *.
    destruct (next_button pg) as [[class|]|].
    + destruct (contains "disabled" class).
      * eexists; eexists. split; [reflexivity|].
        split; [apply quiet_app; [exact Hq|repeat split]|]. right; left; reflexivity.
      * eexists; eexists. split; [rewrite <- app_assoc; reflexivity|].
        split; [|right; right; reflexivity].
        apply quiet_app; [apply quiet_app; [exact Hq|repeat split]|repeat split].
    + eexists; eexists. split; [reflexivity|].
      split; [apply quiet_app; [exact Hq|repeat split]|]. left; reflexivity.
    + eexists; eexists. split; [rewrite <- app_assoc; reflexivity|].
      split; [|right; left; reflexivity].
      apply quiet_app; [apply quiet_app; [exact Hq|repeat split]|repeat split].
Qed.

End DriverFacts.

Section LoopFacts.

Variable md5 : string -> string.

Lemma visit_continue (M : Z) (n : nat) (pg : page) (ps ps' : list paper)
  (evs : list event) :
  visit_page md5 M n pg ps = (Continue ps', evs) ->
  ps' = fst (extract_results md5 M ps (gs_ri pg)) /\
  pauses evs = [] /\ polls evs = [Some n] /\ waits evs = [n].
Proof.
  intro H.
  destruct (visit_page_cases md5 M n pg ps)
    as [(_ & E)|[(_ & _ & E)|(_ & _ & ctl & evs' & E & (Q1 & Q2 & Q3) & Hctl)]];
    rewrite E in H; try discriminate.
  injection H as -> <-.
  destruct Hctl as [Hc|[Hc|Hc]]; try discriminate.
  injection Hc as <-.
  unfold pauses, polls, waits in *. cbn [flat_map app].
  rewrite Q1, Q2, Q3. repeat split.
Qed.

Lemma visit_break (M : Z) (n : nat) (pg : page) (ps ps' : list paper)
  (evs : list event) :
  visit_page md5 M n pg ps = (Break ps', evs) ->
  ps' = ps \/ ps' = fst (extract_results md5 M ps (gs_ri pg)).
Proof.
  intro H.
  destruct (visit_page_cases md5 M n pg ps)
    as [(_ & E)|[(_ & _ & E)|(_ & _ & ctl & evs' & E & _ & Hctl)]];
    rewrite E in H; try discriminate.
  - injection H as <- _. left; reflexivity.
  - injection H as -> _.
    destruct Hctl as [Hc|[Hc|Hc]]; try discriminate.
    injection Hc as <-. right; reflexivity.
Qed.

(** What the loop has done when it comes to its [n]-th pass: it has waited
    for each earlier page once, polled the detection check on it once, and
    never paused beyond the random delay. *)
Lemma reaches_trace (pages : nat -> page) (M : Z) (n : nat)
  (ps : list paper) (tr : list event) :
  reaches md5 pages M n ps tr ->
  pauses tr = [] /\ polls tr = map Some (seq 0 n) /\ waits tr = seq 0 n.
Proof.
  induction 1 as [|n ps tr ps' evs _ (IH1 & IH2 & IH3) _ Hvisit].
  - repeat split.
  - destruct (visit_continue _ _ _ _ _ _ Hvisit) as (_ & V1 & V2 & V3).
    unfold pauses, polls, waits in *.
    rewrite !flat_map_app, IH1, IH2, IH3, V1, V2, V3, seq_S, map_app.
    repeat split.
Qed.

(** A run that comes to its [n]-th pass goes on from there. *)
Lemma scrape_loop_from (pages : nat -> page) (M : Z) (n : nat)
  (ps : list paper) (tr : list event) :
  reaches md5 pages M n ps tr ->
  forall fuel,
    scrape_loop md5 (n + fuel) pages M 0 []
    = (fst (scrape_loop md5 fuel pages M n ps),
       tr ++ snd (scrape_loop md5 fuel pages M n ps)).
Proof.
  induction 1 as [|n ps tr ps' evs _ IH Hroom Hvisit]; intro fuel.
  - cbn [Nat.add app]. destruct (scrape_loop md5 fuel pages M 0 []); reflexivity.
  - replace (S n + fuel)%nat with (n + S fuel)%nat by lia.
    rewrite IH. cbn [scrape_loop].
    apply Z.ltb_lt in Hroom. rewrite Hroom, Hvisit.
    destruct (scrape_loop md5 fuel pages M (S n) ps') as [o evs'].
    cbn [fst snd]. rewrite app_assoc. reflexivity.
Qed.

Lemma harvest_succ (pages : nat -> page) (n : nat) :
  harvest md5 pages (S n) = harvest md5 pages n ++ extracted md5 (gs_ri (pages n)).
Proof.
  unfold harvest. rewrite seq_S, flat_map_app. cbn. rewrite app_nil_r. reflexivity.
Qed.

Lemma harvest_step (pages : nat -> page) (M : Z) (n : nat) (ps : list paper) :
  ps = firstn (Z.to_nat M) (harvest md5 pages n) ->
  len ps < M ->
  fst (extract_results md5 M ps (gs_ri (pages n)))
  = firstn (Z.to_nat M) (harvest md5 pages (S n)).
Proof.
  intros Hps Hroom. rewrite extract_results_papers, harvest_succ, firstn_app.
  assert (Hwhole : firstn (Z.to_nat M) (harvest md5 pages n) = harvest md5 pages n).
  { apply firstn_all2.
    assert (Hl : (List.length ps < Z.to_nat M)%nat) by (unfold len in Hroom; lia).
    rewrite Hps, length_firstn in Hl. lia. }
  rewrite Hwhole in *. subst ps.
  replace (Z.to_nat M - List.length (harvest md5 pages n))%nat
    with (Z.to_nat (M - len (harvest md5 pages n))) by (unfold len; lia).
  reflexivity.
Qed.

(** Whatever the loop returns is the harvest of some number of pages, cut
    at the quota. *)
Lemma scrape_loop_harvest (pages : nat -> page) (M : Z) (fuel : nat) :
  forall (n : nat) (ps ps' : list paper) (evs : list event),
    scrape_loop md5 fuel pages M n ps = (Returned ps', evs) ->
    ps = firstn (Z.to_nat M) (harvest md5 pages n) ->
    exists k, ps' = firstn (Z.to_nat M) (harvest md5 pages k).
Proof.
  induction fuel as [|fuel IH]; intros n ps ps' evs Hrun Hps; cbn [scrape_loop] in Hrun.
  - destruct (Z.ltb_spec (len ps) M); [discriminate|].
    injection Hrun as <- _. exists n. exact Hps.
  - destruct (Z.ltb_spec (len ps) M) as [Hroom|Hfull];
      [|injection Hrun as <- _; exists n; exact Hps].
    destruct (visit_page md5 M n (pages n) ps) as [[ps1|ps1|e] evs1] eqn:Hvisit.
    + destruct (scrape_loop md5 fuel pages M (S n) ps1) as [o evs2] eqn:Hrest.
      injection Hrun as -> _.
      destruct (visit_continue _ _ _ _ _ _ Hvisit) as (-> & _).
      apply (IH _ _ _ _ Hrest). apply harvest_step; assumption.
    + injection Hrun as <- _.
      destruct (visit_break _ _ _ _ _ _ Hvisit) as [->| ->].
      * exists n. exact Hps.
      * exists (S n). apply harvest_step; assumption.
    + discriminate.
Qed.

(** A pass that goes on met no challenge. *)
Lemma visit_continue_clear (M : Z) (n : nat) (pg : page) (ps ps' : list paper)
  (evs : list event) :
  visit_page md5 M n pg ps = (Continue ps', evs) ->
  _detect_captcha (page_markers pg) = false.
Proof.
  intro H.
  destruct (visit_page_cases md5 M n pg ps)
    as [(_ & E)|[(_ & _ & E)|(_ & Hclear & _)]];
    [rewrite E in H; discriminate|rewrite E in H; discriminate|exact Hclear].
Qed.

(** A pass that leaves the loop has waited for its page; it has read the
    blocks of the page unless the page shows a challenge. *)
Lemma visit_break_reads (M : Z) (n : nat) (pg : page) (ps ps' : list paper)
  (evs : list event) :
  visit_page md5 M n pg ps = (Break ps', evs) ->
  waits evs = [n] /\
  ps' = if _detect_captcha (page_markers pg) then ps
        else fst (extract_results md5 M ps (gs_ri pg)).
Proof.
  intro H.
  destruct (visit_page_cases md5 M n pg ps)
    as [(_ & E)|[(_ & Hc & E)|(_ & Hc & ctl & evs' & E & (_ & _ & Q3) & Hctl)]];
    rewrite E in H; try discriminate; rewrite Hc.
  - injection H as <- <-. split; reflexivity.
  - injection H as -> <-.
    destruct Hctl as [Hctl|[Hctl|Hctl]]; try discriminate.
    injection Hctl as <-. split; [|reflexivity].
    unfold waits in *. cbn [flat_map app]. rewrite Q3. reflexivity.
Qed.

(** What the loop returns, told by the pages it waited for: they are the
    pages from the current one on, without a gap, and the list is the
    harvest of the pages read, cut at the quota. *)
Lemma scrape_loop_reads (pages : nat -> page) (M : Z) (fuel : nat) :
  forall (n : nat) (ps ps' : list paper) (evs : list event),
    scrape_loop md5 fuel pages M n ps = (Returned ps', evs) ->
    ps = firstn (Z.to_nat M) (harvest md5 pages n) ->
    pages_read pages n = n ->
    exists k,
      waits evs = seq n k /\
      ps' = firstn (Z.to_nat M) (harvest md5 pages (pages_read pages (n + k))).
Proof.
  assert (Hstay : forall n ps ps' evs,
             (Returned ps, @nil event) = (Returned ps', evs) ->
             ps = firstn (Z.to_nat M) (harvest md5 pages n) ->
             pages_read pages n = n ->
             exists k,
               waits evs = seq n k /\
               ps' = firstn (Z.to_nat M)
                       (harvest md5 pages (pages_read pages (n + k)))).
  { intros n ps ps' evs H Hps Hn. injection H as <- <-. exists 0%nat.
    rewrite Nat.add_0_r, Hn. split; [reflexivity|exact Hps]. }
  induction fuel as [|fuel IH]; intros n ps ps' evs Hrun Hps Hn;
    cbn [scrape_loop] in Hrun.
  - destruct (Z.ltb_spec (len ps) M); [discriminate|].
    apply (Hstay _ _ _ _ Hrun Hps Hn).
  - destruct (Z.ltb_spec (len ps) M) as [Hroom|Hfull];
      [|apply (Hstay _ _ _ _ Hrun Hps Hn)].
    destruct (visit_page md5 M n (pages n) ps) as [[ps1|ps1|e] evs1] eqn:Hvisit.
    + destruct (scrape_loop md5 fuel pages M (S n) ps1) as [o evs2] eqn:Hrest.
      injection Hrun as -> <-.
      pose proof (visit_continue_clear _ _ _ _ _ _ Hvisit) as Hclear.
      destruct (visit_continue _ _ _ _ _ _ Hvisit) as (-> & _ & _ & Hw).
      destruct (IH _ _ _ _ Hrest) as (k & Hk & Hps').
      * apply harvest_step; assumption.
      * cbn [pages_read]. rewrite Hclear. reflexivity.
      * exists (S k). rewrite waits_app, Hw, Hk.
        replace (n + S k)%nat with (S n + k)%nat by lia.
        split; [reflexivity|exact Hps'].
    + injection Hrun as <- <-.
      destruct (visit_break_reads _ _ _ _ _ _ Hvisit) as (Hw & Hps1).
      exists 1%nat. split; [exact Hw|].
      replace (n + 1)%nat with (S n) by lia. cbn [pages_read].
      destruct (_detect_captcha (page_markers (pages n))).
      * rewrite Hps1. exact Hps.
      * rewrite Hps1. apply harvest_step; assumption.
    + discriminate.
Qed.

Lemma productive_extracted (pg : page) :
  productive md5 pg = true -> extracted md5 (gs_ri pg) <> [].
Proof.
  unfold productive, extracted.
  induction (gs_ri pg) as [|e rest IH]; cbn [existsb flat_map]; [discriminate|].
  destruct (_extract_paper_data md5 e); [discriminate|exact IH].
Qed.

(** On productive pages each pass that goes on adds a paper, so the
    room left under the quota bounds the number of passes. *)
Lemma scrape_loop_terminates (pages : nat -> page) (M : Z) :
  (forall i, productive md5 (pages i) = true) ->
  forall (fuel n : nat) (ps : list paper),
    (Z.to_nat (M - len ps) <= fuel)%nat ->
    fst (scrape_loop md5 fuel pages M n ps) <> OutOfFuel.
Proof.
  intro Hprod. induction fuel as [|fuel IH]; intros n ps Hfuel; cbn [scrape_loop].
  - destruct (Z.ltb_spec (len ps) M); [lia|discriminate].
  - destruct (Z.ltb_spec (len ps) M) as [Hroom|Hfull]; [|discriminate].
    destruct (visit_page md5 M n (pages n) ps) as [[ps1|ps1|e] evs1] eqn:Hvisit;
      [|discriminate|discriminate].
    destruct (visit_continue _ _ _ _ _ _ Hvisit) as (Hps1 & _).
    rewrite extract_results_papers in Hps1.
    assert (Hgrow : len ps + 1 <= len ps1).
    { rewrite Hps1, len_app.
      pose proof (productive_extracted _ (Hprod n)) as Hne.
      destruct (extracted md5 (gs_ri (pages n))) as [|p more]; [congruence|].
      replace (Z.to_nat (M - len ps)) with (S (Z.to_nat (M - len ps - 1))) by lia.
      cbn [firstn]. unfold len at 3. cbn [List.length]. lia. }
    specialize (IH (S n) ps1).
    destruct (scrape_loop md5 fuel pages M (S n) ps1) as [o evs2].
    cbn [fst] in *. apply IH. lia.
Qed.

End LoopFacts.

Section RunFacts.

Variable md5 : string -> string.

Lemma in_firstn (A : Type) (n : nat) (l : list A) (x : A) :
  In x (firstn n l) -> In x l.
Proof.
  intro H. rewrite <- (firstn_skipn n l). apply in_or_app. left. exact H.
Qed.

Lemma in_harvest (pages : nat -> page) (k : nat) (p : paper) :
  In p (harvest md5 pages k) ->
  exists i e, In e (gs_ri (pages i)) /\ _extract_paper_data md5 e = Some p.
Proof.
  unfold harvest, extracted. intro H.
  apply in_flat_map in H. destruct H as (i & _ & H).
  apply in_flat_map in H. destruct H as (e & He & H).
  exists i, e. split; [exact He|].
  destruct (_extract_paper_data md5 e) as [p'|]; [|contradiction].
  destruct H as [->|[]]. reflexivity.
Qed.

Lemma close_run_fst (r : outcome * list event) : fst (close_run r) = fst r.
Proof. destruct r as [[ps|e|] evs]; reflexivity. Qed.

Lemma close_run_snd (r : outcome * list event) :
  exists tail, snd (close_run r) = snd r ++ tail /\ quiet tail.
Proof.
  destruct r as [[ps|e|] evs]; cbn [close_run snd].
  - eexists. split; [reflexivity|repeat split].
  - eexists. split; [reflexivity|repeat split].
  - exists []. rewrite app_nil_r. repeat split.
Qed.

Lemma scrape_papers_live (fuel : nat) (s : session) (q : string) (M : Z)
  (yr : option (Z * Z)) :
  driver_starts s = true -> search_box_appears s = true ->
  scrape_papers md5 fuel s q M yr
  = close_run (fst (scrape_loop md5 fuel (results s) M 0 []),
               open_scholar s q M ++ submit_query q yr
               ++ snd (scrape_loop md5 fuel (results s) M 0 [])).
Proof.
  intros Hd Hb. unfold scrape_papers. rewrite Hd, Hb. cbn [negb].
  destruct (scrape_loop md5 fuel (results s) M 0 []); reflexivity.
Qed.

(** A run seen from the pass it has come to. *)
Lemma scrape_papers_at (fuel : nat) (s : session) (q : string) (M : Z)
  (yr : option (Z * Z)) (n : nat) (ps : list paper) (tr : list event) :
  driver_starts s = true -> search_box_appears s = true ->
  reaches md5 (results s) M n ps tr ->
  scrape_papers md5 (n + fuel) s q M yr
  = close_run (fst (scrape_loop md5 fuel (results s) M n ps),
               open_scholar s q M ++ submit_query q yr ++ tr
               ++ snd (scrape_loop md5 fuel (results s) M n ps)).
Proof.
  intros Hd Hb Hreach.
  rewrite (scrape_papers_live _ _ _ _ _ Hd Hb).
  rewrite (scrape_loop_from md5 _ _ _ _ _ Hreach). reflexivity.
Qed.

Lemma open_scholar_trace (s : session) (q : string) (M : Z) :
  pauses (open_scholar s q M) = (if _detect_captcha (landing s) then [30] else []) /\
  polls (open_scholar s q M) = [None] /\
  waits (open_scholar s q M) = [].
Proof.
  unfold open_scholar. destruct (_detect_captcha (landing s)); repeat split.
Qed.

Lemma submit_query_quiet (q : string) (yr : option (Z * Z)) :
  quiet (submit_query q yr).
Proof. destruct yr as [[a b]|]; repeat split. Qed.

Lemma after_submit_run (s : session) (q : string) (M : Z)
  (yr : option (Z * Z)) (rest : list event) :
  after_submit (open_scholar s q M ++ submit_query q yr ++ rest)
  = RandomDelay :: rest.
Proof.
  unfold open_scholar, submit_query.
  destruct (_detect_captcha (landing s)); destruct yr as [[a b]|]; reflexivity.
Qed.

End RunFacts.

(** C1 (as amended). Whenever [scrape_papers] returns, the list holds at
    most max(max_results, 0) papers. On an unbounded supply of pages each
    of which holds at least one block that extracts, the call ends within
    max(max_results, 0) passes of its loop. *)
Theorem scrape_papers_ends_on_productive_pages :
  forall (md5 : string -> string) (s : session) (q : string) (M : Z)
         (yr : option (Z * Z)),
    (forall fuel ps evs,
       scrape_papers md5 fuel s q M yr = (Returned ps, evs) ->
       len ps <= Z.max 0 M) /\
    ((forall i, productive md5 (results s i) = true) ->
     forall fuel, (Z.to_nat M <= fuel)%nat ->
       fst (scrape_papers md5 fuel s q M yr) <> OutOfFuel).
Proof.
  intros md5 s q M yr. split.
  - intros fuel ps evs Hrun. unfold scrape_papers in Hrun.
    destruct (driver_starts s); cbn [negb] in Hrun; [|discriminate].
    destruct (search_box_appears s); cbn [negb] in Hrun; [|discriminate].
    destruct (scrape_loop md5 fuel (results s) M 0 []) as [[ps0|e|] evs0] eqn:Hloop;
      cbn [close_run] in Hrun; try discriminate.
    injection Hrun as <- _.
    destruct (scrape_loop_harvest md5 _ _ _ _ _ _ _ Hloop) as [k ->].
    + cbn. rewrite firstn_nil. reflexivity.
    + unfold len. pose proof (firstn_le_length (Z.to_nat M) (harvest md5 (results s) k)).
      lia.
  - intros Hprod fuel Hfuel. unfold scrape_papers.
    destruct (driver_starts s); cbn [negb]; [|discriminate].
    destruct (search_box_appears s); cbn [negb]; [|discriminate].
    pose proof (scrape_loop_terminates md5 (results s) M Hprod fuel 0 []) as Hend.
    destruct (scrape_loop md5 fuel (results s) M 0 []) as [[ps0|e|] evs0];
      cbn [close_run fst] in *; try discriminate.
    apply Hend. change (len (@nil paper)) with 0. lia.
Qed.

(** On the endless supply of pages that each extract one paper, a quota
    of 25 is met within 25 passes; with a quota of 1 the one paper of the
    first page is the list. *)
Lemma scrape_papers_ends_on_productive_pages_witness :
  len [deep_learning] <= Z.max 0 1 /\
  fst (scrape_papers toy_digest 25 endless_session "deep learning" 25 None)
  <> OutOfFuel.
Proof.
  split.
  - apply (proj1 (scrape_papers_ends_on_productive_pages toy_digest endless_session
                    "deep learning" 1 None) 1%nat [deep_learning] _ eq_refl).
  - apply (proj2 (scrape_papers_ends_on_productive_pages toy_digest endless_session
                    "deep learning" 25 None)).
    + intro i. reflexivity.
    + vm_compute. lia.
Defined.

Lemma barren_pass (md5 : string -> string) (n : nat) :
  fst (visit_page md5 25 n (results barren_session n) []) = Continue [].
Proof. reflexivity. Qed.

Lemma barren_loop (md5 : string -> string) (fuel : nat) :
  forall n, fst (scrape_loop md5 fuel (results barren_session) 25 n []) = OutOfFuel.
Proof.
  induction fuel as [|fuel IH]; intro n; cbn [scrape_loop].
  - reflexivity.
  - change (len (@nil paper) <? 25) with true. cbv iota.
    pose proof (barren_pass md5 n) as Hpass.
    destruct (visit_page md5 25 n (results barren_session n) []) as [ctl evs].
    cbn [fst] in Hpass. subst ctl.
    specialize (IH (S n)).
    destruct (scrape_loop md5 fuel (results barren_session) 25 (S n) []).
    exact IH.
Qed.

(** C1, the claim as written fails. Where every page offers a [Next]
    link and no block extracts, no number of passes ends the call; and
    with a negative quota the list returned, though empty, is longer than
    the quota. *)
Lemma scrape_papers_may_not_end :
  (~ exists (md5 : string -> string) (fuel : nat),
       fst (scrape_papers md5 fuel barren_session "deep learning" 25 None)
       <> OutOfFuel) /\
  (exists ps, fst (scrape_papers toy_digest 0 endless_session "deep learning" (-1) None)
              = Returned ps /\ ~ len ps <= -1).
Proof.
  split.
  - intros (md5 & fuel & Hends). apply Hends.
    rewrite scrape_papers_live by reflexivity.
    rewrite close_run_fst. cbn [fst]. apply barren_loop.
  - exists []. split; [reflexivity|]. cbn. lia.
Qed.

(** C2 (as amended). The pages a run of [scrape_papers] that returns
    has waited for are the pages 0, 1, ... in order, without a gap, and
    the list returned is what the blocks of those pages extract to, in
    page order, cut at max_results (the last page waited for adds nothing
    when it shows a challenge, the loop being left before its blocks are
    read): a paper is left out only by the quota, never for its id. Papers
    with the same stripped title carry the same id, and both stay in the
    list. *)
Theorem scrape_papers_keeps_every_extracted_paper :
  forall (md5 : string -> string) (fuel : nat) (s : session) (q : string)
         (M : Z) (yr : option (Z * Z)) (ps : list paper) (evs : list event),
    scrape_papers md5 fuel s q M yr = (Returned ps, evs) ->
    let waited := List.length (waits evs) in
    waits evs = seq 0 waited /\
    ps = firstn (Z.to_nat M)
           (harvest md5 (results s) (pages_read (results s) waited)) /\
    (forall p1 p2, In p1 ps -> In p2 ps -> title p1 = title p2 -> id p1 = id p2).
Proof.
  intros md5 fuel s q M yr ps evs Hrun waited.
  assert (Hk : waits evs = seq 0 waited /\
               ps = firstn (Z.to_nat M)
                      (harvest md5 (results s) (pages_read (results s) waited))).
  { subst waited. unfold scrape_papers in Hrun.
    destruct (driver_starts s); cbn [negb] in Hrun; [|discriminate].
    destruct (search_box_appears s); cbn [negb] in Hrun; [|discriminate].
    destruct (scrape_loop md5 fuel (results s) M 0 []) as [[ps0|e|] evs0] eqn:Hloop;
      cbn [close_run] in Hrun; try discriminate.
    pose proof (f_equal snd Hrun) as Hevs. cbn [snd] in Hevs.
    pose proof (f_equal fst Hrun) as Hps0. cbn [fst] in Hps0.
    injection Hps0 as ->. clear Hrun.
    destruct (scrape_loop_reads md5 _ _ _ _ _ _ _ Hloop) as (k & Hw & Hps).
    - cbn. rewrite firstn_nil. reflexivity.
    - reflexivity.
    - destruct (open_scholar_trace s q M) as (_ & _ & Ho).
      destruct (submit_query_quiet q yr) as (_ & _ & Hs).
      assert (Hall : waits evs = seq 0 k).
      { rewrite <- Hevs, !waits_app, Ho, Hs, Hw. cbn [waits flat_map app].
        rewrite app_nil_r. reflexivity. }
      rewrite Hall, length_seq. split; [reflexivity|exact Hps]. }
  destruct Hk as [Hw Hps]. split; [exact Hw|]. split; [exact Hps|].
  assert (Hid : forall p, In p ps -> id p = md5 (title p)).
  { intros p Hp. rewrite Hps in Hp. apply in_firstn in Hp.
    destruct (in_harvest md5 _ _ _ Hp) as (i & e & _ & He).
    apply _extract_paper_data_some in He.
    destruct (extract_fields_ok _ _ _ He) as (_ & _ & _ & _ & _ & _ & _ & H & _).
    exact H. }
  intros p1 p2 H1 H2 Ht. rewrite (Hid _ H1), (Hid _ H2), Ht. reflexivity.
Qed.

(** Two blocks with one title on the one page waited for: two papers, in
    order. *)
Lemma scrape_papers_keeps_every_extracted_paper_witness :
  [ {| title := "Deep Learning"; url := Some "https://example.org/paper";
       authors := "Y LeCun"; year := Some 2015;
       snippet := "We study the problem ..."; citations := 12;
       pdf_url := Some "https://example.org/paper.pdf";
       scraped_at := "2024-05-01T10:00:00"; id := "md5(Deep Learning)" |};
    {| title := "Deep Learning"; url := Some "https://example.org/paper";
       authors := "Y LeCun, Y Bengio"; year := Some 2015;
       snippet := "We study the problem ..."; citations := 12;
       pdf_url := Some "https://example.org/paper.pdf";
       scraped_at := "2024-05-01T10:00:00"; id := "md5(Deep Learning)" |} ]
  = firstn (Z.to_nat 10)
      (harvest toy_digest (results twin_session)
         (pages_read (results twin_session)
            (List.length
               (waits (snd (scrape_papers toy_digest 1 twin_session
                              "deep learning" 10 None)))))).
Proof.
  apply (proj1 (proj2 (scrape_papers_keeps_every_extracted_paper toy_digest 1
                         twin_session "deep learning" 10 None _ _ eq_refl))).
Defined.

(** The page that shows a challenge is waited for and adds nothing: of
    the two pages waited for, one is read. *)
Example challenged_page_is_not_read :
  waits (snd (scrape_papers toy_digest 5 challenged_session "deep learning" 10 None))
  = [0; 1]%nat /\
  pages_read (results challenged_session) 2 = 1%nat /\
  fst (scrape_papers toy_digest 5 challenged_session "deep learning" 10 None)
  = Returned (harvest toy_digest (results challenged_session) 1).
Proof. repeat split. Qed.

(** C2, the claim as written fails: two blocks whose titles agree once
    stripped give two papers with one id, whatever the digest. *)
Lemma duplicates_stay_in_the_list :
  ~ exists (md5 : string -> string) (ps : list paper),
      fst (scrape_papers md5 1 twin_session "deep learning" 10 None) = Returned ps /\
      NoDup (map id ps).
Proof.
  intros (md5 & ps & Hrun & Hnodup).
  cbv in Hrun. injection Hrun as <-.
  cbn [map id] in Hnodup. inversion Hnodup as [|x l Hnotin _]; subst.
  apply Hnotin. left. reflexivity.
Qed.

Lemma visit_break_extends (md5 : string -> string) (M : Z) (n : nat) (pg : page)
  (ps ps' : list paper) (evs : list event) :
  visit_page md5 M n pg ps = (Break ps', evs) -> exists more, ps' = ps ++ more.
Proof.
  intro H. destruct (visit_break md5 _ _ _ _ _ _ H) as [->| ->].
  - exists []. rewrite app_nil_r. reflexivity.
  - rewrite extract_results_papers. eexists. reflexivity.
Qed.


(** C6 (as amended). On a results page where the detection check finds
    a challenge the run stops at once and returns the papers collected on
    the pages before: the check has been polled once on the landing page
    and once on each results page, that page included, and nothing is
    polled twice; no pause comes after the query is submitted. The one
    30 s pause of a run is the one taken before the query is submitted,
    when the landing page shows a challenge. *)
Theorem challenge_stops_the_run_without_backoff :
  forall (md5 : string -> string) (s : session) (q : string) (M : Z)
         (yr : option (Z * Z)) (n : nat) (ps : list paper) (tr : list event)
         (fuel : nat),
    driver_starts s = true -> search_box_appears s = true ->
    reaches md5 (results s) M n ps tr ->
    len ps < M ->
    gs_ri_appears (results s n) = true ->
    _detect_captcha (page_markers (results s n)) = true ->
    (n < fuel)%nat ->
    fst (scrape_papers md5 fuel s q M yr) = Returned ps /\
    polls (snd (scrape_papers md5 fuel s q M yr)) = None :: map Some (seq 0 (S n)) /\
    pauses (after_submit (snd (scrape_papers md5 fuel s q M yr))) = [] /\
    pauses (snd (scrape_papers md5 fuel s q M yr))
    = (if _detect_captcha (landing s) then [30] else []).
Proof.
  intros md5 s q M yr n ps tr fuel Hd Hb Hreach Hroom Hseen Hchallenge Hfuel.
  replace fuel with (n + S (fuel - n - 1))%nat by lia.
  set (k := (fuel - n - 1)%nat).
  rewrite (scrape_papers_at md5 (S k) _ q _ yr _ _ _ Hd Hb Hreach).
  rewrite close_run_fst. cbn [fst scrape_loop].
  apply Z.ltb_lt in Hroom. rewrite Hroom.
  destruct (visit_page_cases md5 M n (results s n) ps)
    as [(E & _)|[(_ & _ & E)|(_ & E & _)]]; [congruence| |congruence].
  rewrite E. cbn [fst snd close_run].
  destruct (reaches_trace md5 _ _ _ _ _ Hreach) as (Hp & Hpolls & _).
  destruct (open_scholar_trace s q M) as (Ho1 & Ho2 & _).
  destruct (submit_query_quiet q yr) as (Hs1 & Hs2 & _).
  repeat split.
  - rewrite <- !app_assoc, !polls_app, Ho2, Hs2, Hpolls, seq_S, map_app.
    cbn. reflexivity.
  - rewrite <- !app_assoc, after_submit_run.
    change (RandomDelay :: ?l) with ([RandomDelay] ++ l).
    rewrite !pauses_app, Hp. reflexivity.
  - rewrite <- !app_assoc, !pauses_app, Ho1, Hs1, Hp.
    cbn. rewrite app_nil_r. reflexivity.
Qed.



(** A challenge on the second page of a run. *)
Lemma challenge_stops_the_run_without_backoff_witness :
  fst (scrape_papers toy_digest 2 challenged_session "deep learning" 10 None)
  = Returned [deep_learning] /\
  polls (snd (scrape_papers toy_digest 2 challenged_session "deep learning" 10 None))
  = None :: map Some (seq 0 2) /\
  pauses (after_submit
            (snd (scrape_papers toy_digest 2 challenged_session "deep learning" 10 None)))
  = [] /\
  pauses (snd (scrape_papers toy_digest 2 challenged_session "deep learning" 10 None))
  = (if _detect_captcha (landing challenged_session) then [30] else []).
Proof.
  apply (challenge_stops_the_run_without_backoff toy_digest challenged_session
           "deep learning" 10 None 1 [deep_learning] _ 2 eq_refl eq_refl
           (reaches_next toy_digest (results challenged_session) 10 0 [] []
              [deep_learning] _ (reaches_first _ _ _) eq_refl eq_refl)
           eq_refl eq_refl eq_refl (le_n 2)).
Defined.

(** C6, the claim as written fails: on the page that shows a challenge
    the run takes no pause and polls the detection check once. *)
Lemma challenge_meets_no_backoff :
  fst (scrape_papers toy_digest 5 challenged_session "deep learning" 10 None)
  = Returned [deep_learning] /\
  pauses (snd (scrape_papers toy_digest 5 challenged_session "deep learning" 10 None))
  = [] /\
  polls (snd (scrape_papers toy_digest 5 challenged_session "deep learning" 10 None))
  = [None; Some 0%nat; Some 1%nat].
Proof. repeat split; vm_compute; reflexivity. Qed.

(* ================================================================== *)
(** * Properties of the Cache/Dedup Store *)
(* ================================================================== *)

Lemma find_app_none (A : Type) (f : A -> bool) (l l' : list A) :
  (forall x, In x l -> f x = false) -> find f (l ++ l') = find f l'.
Proof.
  induction l as [|a l IH]; intro Hnone; cbn [app find]; [reflexivity|].
  rewrite (Hnone a (or_introl eq_refl)).
  apply IH. intros x Hx. apply Hnone. right. exact Hx.
Qed.

Lemma filter_none (A : Type) (f : A -> bool) (l : list A) :
  (forall x, In x l -> f x = false) -> filter f l = [].
Proof.
  induction l as [|a l IH]; intro Hnone; cbn [filter]; [reflexivity|].
  rewrite (Hnone a (or_introl eq_refl)).
  apply IH. intros x Hx. apply Hnone. right. exact Hx.
Qed.

Lemma filter_twice (A : Type) (f : A -> bool) (l : list A) :
  filter f (filter f l) = filter f l.
Proof.
  induction l as [|a l IH]; cbn [filter]; [reflexivity|].
  destruct (f a) eqn:E; cbn [filter]; rewrite ?E, IH; reflexivity.
Qed.

Lemma filter_filter_comm (A : Type) (f g : A -> bool) (l : list A) :
  (forall x, f x = true -> g x = true) -> filter f (filter g l) = filter f l.
Proof.
  intro Himp. induction l as [|a l IH]; cbn [filter]; [reflexivity|].
  destruct (g a) eqn:Eg; cbn [filter].
  - rewrite IH. reflexivity.
  - destruct (f a) eqn:Ef; [rewrite (Himp a Ef) in Eg; discriminate|exact IH].
Qed.

Lemma find_filter (A : Type) (f g : A -> bool) (l : list A) :
  (forall x, In x l -> f x = true -> g x = true) ->
  find f (filter g l) = find f l.
Proof.
  induction l as [|a l IH]; intro Himp; cbn [filter find]; [reflexivity|].
  assert (IH' : find f (filter g l) = find f l)
    by (apply IH; intros x Hx; apply Himp; right; exact Hx).
  destruct (g a) eqn:Hg; cbn [find].
  - rewrite IH'. reflexivity.
  - destruct (f a) eqn:Hf; [|exact IH'].
    rewrite (Himp a (or_introl eq_refl) Hf) in Hg. discriminate.
Qed.

Lemma find_app_last (A : Type) (f : A -> bool) (l : list A) (x : A) :
  f x = false -> find f (l ++ [x]) = find f l.
Proof.
  intro Hx. induction l as [|a l IH]; cbn [app find].
  - rewrite Hx. reflexivity.
  - destruct (f a); [reflexivity|exact IH].
Qed.

Section CacheFacts.

Variable md5 : string -> string.
Variable json : Type.
Variable json_dumps : list paper -> json.
Variable json_loads : json -> result (list paper).
Hypothesis json_round_trip : forall r, json_loads (json_dumps r) = Ok r.

(** A read of the key just written, with a [max_results] SQLite stores:
    the row written answers while it is valid, and no row answers
    afterwards. *)
Lemma get_after_put (db : store json) (now : Z) (q q' : string) (n n' : Z)
  (r : list paper) (t : Z) :
  sqlite_integer n = true ->
  _generate_query_hash md5 q' n' = _generate_query_hash md5 q n ->
  get_cached_search md5 json_loads true t
    (fst (cache_search_results md5 json_dumps true now db q n r)) q' n' 24
  = if (now + 24 * 3600 <=? sqlite_last_second) && (t <? now + 24 * 3600)
    then (Some r, [Log Info (fmt ["Cache hit for query: "; q'])])
    else (None, []).
Proof.
  intros Hn Hkey. unfold cache_search_results, get_cached_search.
  rewrite Hn. cbn [negb fst search_cache]. rewrite Hkey.
  set (h := _generate_query_hash md5 q n).
  rewrite find_app_none.
  - cbn [find query_hash]. rewrite String.eqb_refl. unfold still_valid.
    cbn [cache_created_at andb Z.leb Z.compare].
    rewrite Z.gtb_ltb. replace (now + 3600 * 24) with (now + 24 * 3600) by lia.
    destruct ((now + 24 * 3600 <=? sqlite_last_second) && (t <? now + 24 * 3600));
      [|reflexivity].
    cbn [cached_results]. rewrite json_round_trip. reflexivity.
  - intros x Hx. apply filter_In in Hx. destruct Hx as [_ Hx].
    apply negb_true_iff in Hx. rewrite Hx. reflexivity.
Qed.

(** A [max_results] SQLite does not store: the write is given up and the
    store is as it was. *)
Lemma put_oversized (db : store json) (now : Z) (q : string) (n : Z)
  (r : list paper) :
  sqlite_integer n = false ->
  cache_search_results md5 json_dumps true now db q n r
  = (db, [LogExn "Error caching search results" OverflowError]).
Proof.
  intro Hn. unfold cache_search_results. rewrite Hn. reflexivity.
Qed.

(** A read of another key does not see the write. *)
Lemma get_after_other_put (db : store json) (now : Z) (q q' : string) (n n' : Z)
  (r : list paper) (t hours : Z) :
  _generate_query_hash md5 q' n' <> _generate_query_hash md5 q n ->
  get_cached_search md5 json_loads true t
    (fst (cache_search_results md5 json_dumps true now db q n r)) q' n' hours
  = get_cached_search md5 json_loads true t db q' n' hours.
Proof.
  intro Hkey. unfold cache_search_results.
  destruct (sqlite_integer n); cbn [negb fst]; [|reflexivity].
  unfold get_cached_search. cbn [negb search_cache].
  set (h := _generate_query_hash md5 q n).
  set (h' := _generate_query_hash md5 q' n').
  rewrite find_app_last.
  - rewrite find_filter; [reflexivity|].
    intros x _ Hx. apply andb_true_iff in Hx. destruct Hx as [Hx _].
    apply String.eqb_eq in Hx. apply negb_true_iff. apply String.eqb_neq.
    rewrite Hx. exact Hkey.
  - cbn [query_hash].
    replace (String.eqb h h') with false; [reflexivity|].
    symmetry. apply String.eqb_neq. intro E. apply Hkey. symmetry. exact E.
Qed.

End CacheFacts.




(** When the database does not answer nothing is cached, and the read
    that follows finds nothing. *)
Example unreachable_store_caches_nothing :
  fst (get_cached_search toy_digest toy_loads true 1714557600
         (fst (cache_search_results toy_digest toy_dumps false 1714557600
                 empty_store "Deep Learning" 10 [deep_learning]))
         "Deep Learning" 10 24) = None.
Proof. reflexivity. Qed.

Lemma select_after_save (json : Type) (db : store json) (now : Z) (p : paper) :
  storable p = true ->
  select_paper (fst (save_paper true now db p)) (id p) = [row_of_paper now p].
Proof.
  intro Hp. unfold select_paper, save_paper. rewrite Hp. cbn [negb fst papers].
  rewrite filter_app, filter_none.
  - cbn [filter app row_of_paper row_id]. rewrite String.eqb_refl. reflexivity.
  - intros x Hx. apply filter_In in Hx. destruct Hx as [_ Hx].
    apply negb_true_iff in Hx. exact Hx.
Qed.

Lemma row_of_paper_holds (now : Z) (p : paper) : row_holds (row_of_paper now p) p now.
Proof. repeat split. Qed.




(* ================================================================== *)
(** * Properties of the route [/api/search] *)
(* ================================================================== *)

(** C9 (as amended). When a search misses the cache and the scrape
    returns, a database that fails on the cache write changes nothing to
    the answer: the caller gets the scraped papers in the ordinary success
    answer, the store is as it was, and the failure is caught in
    [cache_search_results], where it ends as a line of the log. *)
Theorem cache_write_failure_is_absorbed :
  forall (md5 : string -> string) (json : Type)
         (json_dumps : list paper -> json) (json_loads : json -> result (list paper))
         (fuel : nat) (w : search_world) (db : store json) (req : search_request)
         (q : string) (found : list paper) (evs : list event),
    let n := match req_max_results req with Some n => n | None => 50 end in
    req_query req = Some q -> q <> "" ->
    db_writable w = false ->
    truthy (fst (get_cached_search md5 json_loads (db_readable w) (db_clock w)
                   db q n 24)) = false ->
    scrape_papers md5 fuel (browser w) q n (req_year_range req)
    = (Returned found, evs) ->
    exists logged,
      search_papers md5 json_dumps json_loads fuel w db req
      = Some (Success found false (timestamp_now w), db,
              logged ++ [LogExn "Error caching search results" SqliteError]).
Proof.
  intros md5 json json_dumps json_loads fuel w db req q found evs n
         Hq Hne Hdown Hmiss Hscrape.
  unfold search_papers. rewrite Hq. fold n.
  apply String.eqb_neq in Hne. rewrite Hne.
  destruct (get_cached_search md5 json_loads (db_readable w) (db_clock w) db q n 24)
    as [cached evs1].
  cbn [fst] in Hmiss. rewrite Hmiss, Hscrape.
  unfold cache_search_results. rewrite Hdown. cbn [negb].
  exists (evs1 ++ evs). rewrite <- app_assoc. reflexivity.
Qed.

(** A search on an empty store whose database refuses the write. *)
Lemma cache_write_failure_is_absorbed_witness :
  exists logged,
    search_papers toy_digest toy_dumps toy_loads 1 (world false) empty_store
                  deep_learning_request
    = Some (Success [deep_learning] false "2024-05-01T10:00:05", empty_store,
            logged ++ [LogExn "Error caching search results" SqliteError]).
Proof.
  eapply (cache_write_failure_is_absorbed toy_digest (list paper) toy_dumps toy_loads 1
            (world false) empty_store deep_learning_request "deep learning"
            [deep_learning]).
  - reflexivity.
  - discriminate.
  - reflexivity.
  - reflexivity.
  - reflexivity.
Defined.

(** C9, the claim as written fails: the answer to the caller is the same
    success answer whether the cache write failed or went through. *)
Lemma cache_write_failure_reaches_no_caller :
  let answer (writable : bool) :=
    option_map (fun r => fst (fst r))
      (search_papers toy_digest toy_dumps toy_loads 1 (world writable) empty_store
                     deep_learning_request) in
  answer false = Some (Success [deep_learning] false "2024-05-01T10:00:05") /\
  answer false = answer true.
Proof. split; vm_compute; reflexivity. Qed.

(* ================================================================== *)
(** * Properties of the Artifact Fetcher *)
(* ================================================================== *)

(** C10 (as amended). With a null or empty [pdf_url] the call returns
    [None] at once: no request, no file. With a [pdf_url], a failure of
    the request, a status from 400 to 599, a content type that does not
    mention "pdf" and a failure to write the file each give [None], no
    exception leaving the call. *)
Theorem download_failures_give_none :
  forall (w : fetch_world) (pdf_url : option string) (paper_id : string),
    (falsy pdf_url = true ->
     download_pdf_if_available w pdf_url paper_id = (None, [])) /\
    (falsy pdf_url = false ->
     (ua_random w = None \/
      reply w = NoReply \/
      (exists status_code content_type content,
         reply w = Reply status_code content_type content /\
         (400 <= status_code < 600 \/
          contains "pdf" (lower (match content_type with Some t => t | None => "" end))
          = false)) \/
      disk_writable w = false) ->
     fst (download_pdf_if_available w pdf_url paper_id) = None).
Proof.
  intros w pdf_url paper_id. unfold download_pdf_if_available. split.
  - intros ->. reflexivity.
  - intros -> Hfail. unfold download_body.
    destruct (ua_random w) as [agent|]; [|reflexivity].
    destruct (reply w) as [|status_code content_type content]; [reflexivity|].
    unfold raise_for_status.
    destruct ((400 <=? status_code) && (status_code <? 600))%bool eqn:Hstatus;
      [reflexivity|].
    destruct (contains "pdf" (lower match content_type with
                                    | Some t => t
                                    | None => ""
                                    end)) eqn:Hpdf; cbn [negb]; [|reflexivity].
    destruct (disk_writable w); [|destruct (file_opens w); reflexivity].
    exfalso.
    destruct Hfail as [H|[H|[(sc & ct & c & H & Hbad)|H]]]; try discriminate.
    injection H as <- <- <-.
    destruct Hbad as [Hrange|Hct]; [|congruence].
    apply andb_false_iff in Hstatus.
    destruct Hstatus as [H|H]; [apply Z.leb_gt in H|apply Z.ltb_ge in H]; lia.
Qed.

(** No address: nothing is done. Status 404: nothing is kept. *)
Lemma download_failures_give_none_witness :
  download_pdf_if_available not_found_world (Some "") "0cc175b9c0f1b6a8"
  = (None, []) /\
  fst (download_pdf_if_available not_found_world
         (Some "https://example.org/paper.pdf") "0cc175b9c0f1b6a8") = None.
Proof.
  split.
  - apply (proj1 (download_failures_give_none not_found_world (Some "")
                    "0cc175b9c0f1b6a8")). reflexivity.
  - apply (proj2 (download_failures_give_none not_found_world
                    (Some "https://example.org/paper.pdf") "0cc175b9c0f1b6a8")).
    + reflexivity.
    + right; right; left. exists 404, (Some "application/pdf"), "".
      split; [reflexivity|]. left. lia.
Defined.

(** C10, the claim as written fails: a status outside 200-299 that
    [raise_for_status] lets through, here 304, with a PDF content type,
    gives a file path, and the body is written to the disk. *)
Lemma status_304_is_saved :
  download_pdf_if_available not_modified_world
    (Some "https://example.org/paper.pdf") "0cc175b9c0f1b6a8"
  = (Some "../data/papers/0cc175b9c0f1b6a8.pdf",
     [HttpGet "https://example.org/paper.pdf";
      WriteFile "../data/papers/0cc175b9c0f1b6a8.pdf" "%PDF-1.4";
      Log Info "Downloaded PDF: ../data/papers/0cc175b9c0f1b6a8.pdf"]).
Proof. vm_compute. reflexivity. Qed.

(* ================================================================== *)
(** * Further properties of the Pagination Driver *)
(* ================================================================== *)

Lemma paced_app (a b : list event) :
  paced a = true -> paced b = true -> paced (a ++ b) = true.
Proof.
  induction a as [|e rest IH]; intros Ha Hb; [exact Hb|].
  cbn [paced app] in *. apply andb_true_iff in Ha. destruct Ha as [Hnext Hrest].
  rewrite (IH Hrest Hb), andb_true_r.
  destruct (navigates e); [|reflexivity].
  destruct rest as [|[] rest']; try discriminate. reflexivity.
Qed.

Lemma quits_app (a b : list event) : quits (a ++ b) = (quits a + quits b)%nat.
Proof. unfold quits. rewrite filter_app, length_app. reflexivity. Qed.

Section PacingFacts.

Variable md5 : string -> string.

Lemma extract_results_idle (es : list result_element) :
  forall (M : Z) (ps : list paper),
    paced (snd (extract_results md5 M ps es)) = true /\
    quits (snd (extract_results md5 M ps es)) = 0%nat.
Proof.
  induction es as [|e rest IH]; intros M ps; cbn [extract_results].
  - split; reflexivity.
  - destruct (len ps >=? M); [split; reflexivity|].
    match goal with
    | |- context [extract_results md5 M ?q rest] =>
        specialize (IH M q); destruct (extract_results md5 M q rest) as [final evs]
    end.
    cbn [snd] in *. destruct IH as [IH1 IH2].
    unfold extraction_log. destruct (extract_fields md5 e); cbn [app].
    + split; assumption.
    + split; [cbn [paced navigates andb]; exact IH1|].
      unfold quits in *. cbn [filter]. exact IH2.
Qed.

Lemma visit_page_idle (M : Z) (n : nat) (pg : page) (ps : list paper) :
  paced (snd (visit_page md5 M n pg ps)) = true /\
  quits (snd (visit_page md5 M n pg ps)) = 0%nat.
Proof.
  unfold visit_page.
  destruct (gs_ri_appears pg); cbn [negb]; [|split; reflexivity].
  destruct (_detect_captcha (page_markers pg)); [split; reflexivity|].
  destruct (gs_ri pg) as [|e rest]; [split; reflexivity|].
  destruct (extract_results_idle (e :: rest) M ps) as [Hp Hq].
  destruct (extract_results md5 M ps (e :: rest)) as [ps' logged].
  cbn [snd] in *.
  assert (Hhead : forall tail,
             paced tail = true -> quits tail = 0%nat ->
             paced ([WaitResults n; DetectCaptcha (Some n)] ++ logged ++ tail) = true /\
             quits ([WaitResults n; DetectCaptcha (Some n)] ++ logged ++ tail) = 0%nat).
  { intros tail Ht1 Ht2. split.
    - apply paced_app; [reflexivity|]. apply paced_app; assumption.
    - rewrite !quits_app, Hq, Ht2. reflexivity. }
  destruct (next_button pg) as [[class|]|].
  - destruct (contains "disabled" class); cbn [snd].
    + apply Hhead; reflexivity.
    + rewrite <- !app_assoc. apply Hhead; reflexivity.
  - cbn [snd]. apply Hhead; reflexivity.
  - cbn [snd]. rewrite <- !app_assoc. apply Hhead; reflexivity.
Qed.

Lemma scrape_loop_idle (pages : nat -> page) (M : Z) (fuel : nat) :
  forall (n : nat) (ps : list paper),
    paced (snd (scrape_loop md5 fuel pages M n ps)) = true /\
    quits (snd (scrape_loop md5 fuel pages M n ps)) = 0%nat.
Proof.
  induction fuel as [|fuel IH]; intros n ps; cbn [scrape_loop].
  - destruct (len ps <? M); split; reflexivity.
  - destruct (len ps <? M); [|split; reflexivity].
    destruct (visit_page_idle M n (pages n) ps) as [Hp Hq].
    destruct (visit_page md5 M n (pages n) ps) as [[ps1|ps1|e] evs1];
      cbn [snd] in *; try (split; assumption).
    specialize (IH (S n) ps1).
    destruct (scrape_loop md5 fuel pages M (S n) ps1) as [o evs2].
    cbn [snd] in *. destruct IH as [IH1 IH2]. split.
    + apply paced_app; assumption.
    + rewrite quits_app, Hq, IH2. reflexivity.
Qed.

Lemma open_scholar_idle (s : session) (q : string) (M : Z) :
  paced (open_scholar s q M) = true /\ quits (open_scholar s q M) = 0%nat.
Proof.
  unfold open_scholar. destruct (_detect_captcha (landing s)); split; reflexivity.
Qed.

Lemma submit_query_idle (q : string) (yr : option (Z * Z)) :
  paced (submit_query q yr) = true /\ quits (submit_query q yr) = 0%nat.
Proof. destruct yr as [[a b]|]; split; reflexivity. Qed.

End PacingFacts.

Lemma ends_with_quit (a : list event) (e : event) :
  exists before, a ++ [e; Quit] = before ++ [Quit].
Proof. exists (a ++ [e]). rewrite <- app_assoc. reflexivity. Qed.


(** X2. In a run of [scrape_papers] that ends, the driver is quit exactly
    once, as the last thing done, when [_setup_driver] returned a driver;
    when [_setup_driver] raised, nothing is quit and the call raises the
    exception [_setup_driver] raised, whatever it is. *)
Theorem scrape_papers_quits_the_driver_once :
  forall (md5 : string -> string) (fuel : nat) (s : session) (q : string)
         (M : Z) (yr : option (Z * Z)),
    fst (scrape_papers md5 fuel s q M yr) <> OutOfFuel ->
    (driver_starts s = true ->
     quits (snd (scrape_papers md5 fuel s q M yr)) = 1%nat /\
     exists before, snd (scrape_papers md5 fuel s q M yr) = before ++ [Quit]) /\
    (driver_starts s = false ->
     quits (snd (scrape_papers md5 fuel s q M yr)) = 0%nat /\
     fst (scrape_papers md5 fuel s q M yr) = Raised (setup_error s)).
Proof.
  intros md5 fuel s q M yr. unfold scrape_papers.
  destruct (driver_starts s); cbn [negb];
    [|intros _; split; [discriminate|intros _; split; reflexivity]].
  destruct (open_scholar_idle s q M) as [_ Ho].
  destruct (submit_query_idle q yr) as [_ Hs].
  destruct (search_box_appears s); cbn [negb].
  - destruct (scrape_loop_idle md5 (results s) M fuel 0 []) as [_ Hl].
    destruct (scrape_loop md5 fuel (results s) M 0 []) as [[ps|e|] evs];
      cbn [fst snd close_run] in *; intro Hend; [| |congruence];
      (split; [intros _|discriminate]); split.
    + rewrite !quits_app, Ho, Hs, Hl. reflexivity.
    + apply ends_with_quit.
    + rewrite !quits_app, Ho, Hs, Hl. reflexivity.
    + apply ends_with_quit.
  - cbn [close_run fst snd]. intros _. split; [intros _|discriminate]. split.
    + rewrite quits_app, Ho. reflexivity.
    + apply ends_with_quit.
Qed.

(** A run that stalls on its second page, and a driver whose download
    fails on the network. *)
Lemma scrape_papers_quits_the_driver_once_witness :
  (quits (snd (scrape_papers toy_digest 5 stalling_session "deep learning" 10 None))
   = 1%nat /\
   exists before,
     snd (scrape_papers toy_digest 5 stalling_session "deep learning" 10 None)
     = before ++ [Quit]) /\
  (quits (snd (scrape_papers toy_digest 5 offline_session "deep learning" 10 None))
   = 0%nat /\
   fst (scrape_papers toy_digest 5 offline_session "deep learning" 10 None)
   = Raised RequestException).
Proof.
  split.
  - apply (proj1 (scrape_papers_quits_the_driver_once toy_digest 5 stalling_session
                    "deep learning" 10 None ltac:(vm_compute; discriminate))).
    reflexivity.
  - apply (proj2 (scrape_papers_quits_the_driver_once toy_digest 5 offline_session
                    "deep learning" 10 None ltac:(vm_compute; discriminate))).
    reflexivity.
Defined.

Section QuotaFacts.

Variable md5 : string -> string.

Lemma extract_results_grows (M : Z) (pg : page) (ps : list paper) :
  productive md5 pg = true -> len ps < M ->
  len ps < len (fst (extract_results md5 M ps (gs_ri pg))) <= M.
Proof.
  intros Hprod Hroom. rewrite extract_results_papers, len_app.
  pose proof (productive_extracted md5 _ Hprod) as Hne.
  pose proof (firstn_le_length (Z.to_nat (M - len ps)) (extracted md5 (gs_ri pg))) as Hle.
  destruct (extracted md5 (gs_ri pg)) as [|p more]; [congruence|].
  replace (Z.to_nat (M - len ps)) with (S (Z.to_nat (M - len ps - 1))) in * by lia.
  cbn [firstn] in *. unfold len in *. cbn [List.length] in *. lia.
Qed.

Lemma visit_in_order (M : Z) (n : nat) (pg : page) (ps : list paper) :
  in_order md5 pg = true -> len ps < M ->
  exists ps' evs,
    visit_page md5 M n pg ps = (Continue ps', evs) /\ len ps < len ps' <= M.
Proof.
  unfold in_order. intros Hok Hroom.
  apply andb_true_iff in Hok. destruct Hok as [Hok Hnext].
  apply andb_true_iff in Hok. destruct Hok as [Hok Hprod].
  apply andb_true_iff in Hok. destruct Hok as [Hseen Hcalm].
  apply negb_true_iff in Hcalm.
  pose proof (extract_results_grows M pg ps Hprod Hroom) as Hgrow.
  unfold visit_page. rewrite Hseen, Hcalm. cbn [negb].
  destruct (gs_ri pg) as [|e rest] eqn:Hblocks;
    [unfold productive in Hprod; rewrite Hblocks in Hprod; discriminate|].
  destruct (extract_results md5 M ps (e :: rest)) as [ps' logged].
  cbn [fst] in Hgrow.
  destruct (next_button pg) as [[class|]|]; try discriminate.
  apply negb_true_iff in Hnext. rewrite Hnext.
  eexists; eexists. split; [reflexivity|exact Hgrow].
Qed.

Lemma scrape_loop_fills_quota (pages : nat -> page) (M : Z) :
  (forall i, in_order md5 (pages i) = true) ->
  forall (fuel n : nat) (ps : list paper),
    len ps <= Z.max 0 M ->
    (Z.to_nat (M - len ps) <= fuel)%nat ->
    exists ps', fst (scrape_loop md5 fuel pages M n ps) = Returned ps' /\
                len ps' = Z.max 0 M.
Proof.
  intro Hok. induction fuel as [|fuel IH]; intros n ps Hle Hfuel; cbn [scrape_loop].
  - destruct (Z.ltb_spec (len ps) M); [lia|].
    exists ps. split; [reflexivity|]. pose proof (len_nonneg _ ps). lia.
  - destruct (Z.ltb_spec (len ps) M) as [Hroom|Hfull].
    + destruct (visit_in_order M n (pages n) ps (Hok n) Hroom)
        as (ps1 & evs1 & -> & Hgrow).
      destruct (IH (S n) ps1) as (ps' & Hrun & Hlen); [lia|lia|].
      destruct (scrape_loop md5 fuel pages M (S n) ps1) as [o evs2].
      exists ps'. split; [exact Hrun|exact Hlen].
    + exists ps. split; [reflexivity|]. pose proof (len_nonneg _ ps). lia.
Qed.

End QuotaFacts.

(** X3. When Chrome starts, the search box shows, and every results page
    renders, shows no challenge, holds at least one block that extracts
    and has a live [Next] link, [scrape_papers] returns exactly
    max(max_results, 0) papers, within that many passes. *)
Theorem scrape_papers_fills_the_quota :
  forall (md5 : string -> string) (s : session) (q : string) (M : Z)
         (yr : option (Z * Z)) (fuel : nat),
    driver_starts s = true -> search_box_appears s = true ->
    (forall i, in_order md5 (results s i) = true) ->
    (Z.to_nat M <= fuel)%nat ->
    exists ps, fst (scrape_papers md5 fuel s q M yr) = Returned ps /\
               len ps = Z.max 0 M.
Proof.
  intros md5 s q M yr fuel Hd Hb Hok Hfuel.
  rewrite (scrape_papers_live md5 fuel s q M yr Hd Hb), close_run_fst. cbn [fst].
  apply scrape_loop_fills_quota; [exact Hok| |].
  - change (len (@nil paper)) with 0. lia.
  - change (len (@nil paper)) with 0. lia.
Qed.

(** Three papers asked of an endless supply of good pages. *)
Lemma scrape_papers_fills_the_quota_witness :
  exists ps,
    fst (scrape_papers toy_digest 3 endless_session "deep learning" 3 None)
    = Returned ps /\ len ps = Z.max 0 3.
Proof.
  apply (scrape_papers_fills_the_quota toy_digest endless_session "deep learning" 3
           None 3 eq_refl eq_refl).
  - intro i. reflexivity.
  - vm_compute. lia.
Defined.

(* ================================================================== *)
(** * Further properties of the Result Extractor *)
(* ================================================================== *)

Lemma int_digits_nonneg (s : string) :
  forall (acc v : Z), 0 <= acc -> int_digits acc s = Ok v -> 0 <= v.
Proof.
  induction s as [|c r IH]; intros acc v Hacc H; cbn [int_digits] in H.
  - injection H as <-. exact Hacc.
  - destruct (isdecimal c) eqn:Hc; [|discriminate].
    apply (IH (10 * acc + digit_value c) v); [|exact H].
    pose proof (digit_value_range _ Hc). lia.
Qed.

Lemma python_int_nonneg (s : string) (v : Z) : python_int s = Ok v -> 0 <= v.
Proof.
  unfold python_int. destruct s; [discriminate|].
  apply int_digits_nonneg. lia.
Qed.

(** X4. A paper that [_extract_paper_data] gives has a citation count
    that is not negative, a year that is not negative when there is one,
    and for id the digest of its title. *)
Theorem extracted_paper_is_well_formed :
  forall (md5 : string -> string) (e : result_element) (p : paper),
    _extract_paper_data md5 e = Some p ->
    0 <= citations p /\
    (forall y, year p = Some y -> 0 <= y) /\
    id p = md5 (title p).
Proof.
  intros md5 e p H. apply _extract_paper_data_some in H.
  destruct (extract_fields_ok _ _ _ H)
    as (a & detail & body & _ & _ & _ & _ & Hid & Hyear & Hcit & _).
  split; [|split; [|exact Hid]].
  - unfold extract_citations in Hcit.
    destruct (cited_by e) as [text|]; cbn [find_element] in Hcit.
    + apply (python_int_nonneg _ _ Hcit).
    + injection Hcit as <-. lia.
  - intros y Hy. rewrite Hy in Hyear. unfold extract_year, year_of_match in Hyear.
    destruct (scan_year (str_split " - " detail) None) as [[|c r]|];
      try discriminate.
    destruct (python_int (String c r)) as [v|] eqn:Hv; [|discriminate].
    cbn [bind] in Hyear. injection Hyear as ->.
    apply (python_int_nonneg _ _ Hv).
Qed.

Lemma extracted_paper_is_well_formed_witness :
  0 <= citations deep_learning /\
  (forall y, year deep_learning = Some y -> 0 <= y) /\
  id deep_learning = toy_digest (title deep_learning).
Proof.
  apply (extracted_paper_is_well_formed toy_digest
           (block "Deep Learning" "Y LeCun - nature, 2015 - nature.com")
           deep_learning eq_refl).
Defined.

Lemma append_empty_r (s : string) : (s ++ "")%string = s.
Proof. induction s as [|c r IH]; cbn; [reflexivity|rewrite IH; reflexivity]. Qed.

Lemma append_assoc (a b c : string) :
  ((a ++ b) ++ c)%string = (a ++ (b ++ c))%string.
Proof. induction a as [|x r IH]; cbn; [reflexivity|rewrite IH; reflexivity]. Qed.

Lemma rev_onto_append (s : string) :
  forall acc, rev_onto s acc = (reverse s ++ acc)%string.
Proof.
  unfold reverse. induction s as [|c r IH]; intro acc; cbn [rev_onto].
  - reflexivity.
  - rewrite (IH (String c acc)), (IH (String c EmptyString)), append_assoc.
    reflexivity.
Qed.

Lemma reverse_cons (c : ascii) (r : string) :
  reverse (String c r) = (reverse r ++ String c EmptyString)%string.
Proof. unfold reverse at 1. cbn [rev_onto]. apply rev_onto_append. Qed.

Lemma reverse_append (a b : string) :
  reverse (a ++ b)%string = (reverse b ++ reverse a)%string.
Proof.
  induction a as [|c r IH]; cbn [append].
  - rewrite append_empty_r. reflexivity.
  - rewrite !reverse_cons, IH, append_assoc. reflexivity.
Qed.

Lemma reverse_involutive (s : string) : reverse (reverse s) = s.
Proof.
  induction s as [|c r IH]; [reflexivity|].
  rewrite reverse_cons, reverse_append, IH. reflexivity.
Qed.

Lemma lstrip_idempotent (s : string) : lstrip (lstrip s) = lstrip s.
Proof.
  induction s as [|c r IH]; cbn [lstrip]; [reflexivity|].
  destruct (isspace c) eqn:Hc; [exact IH|]. cbn [lstrip]. rewrite Hc. reflexivity.
Qed.

(** A string that does not begin with white space, and is not empty,
    keeps its first character under [rstrip]. *)
Lemma lstrip_keeps_last (x : string) (c : ascii) :
  isspace c = false ->
  exists y, lstrip (x ++ String c EmptyString)%string
            = (y ++ String c EmptyString)%string.
Proof.
  intro Hc. induction x as [|a r IH]; cbn [append lstrip].
  - rewrite Hc. exists EmptyString. reflexivity.
  - destruct (isspace a); [exact IH|].
    exists (String a r). reflexivity.
Qed.

Lemma rstrip_keeps_head (s : string) : lstrip s = s -> lstrip (rstrip s) = rstrip s.
Proof.
  destruct s as [|c r]; [reflexivity|].
  cbn [lstrip]. destruct (isspace c) eqn:Hc.
  - intro H. exfalso.
    assert (Hlen : (String.length (lstrip r) <= String.length r)%nat).
    { clear. induction r as [|a r IH]; cbn [lstrip String.length]; [lia|].
      destruct (isspace a); cbn [String.length]; lia. }
    rewrite H in Hlen. cbn [String.length] in Hlen. lia.
  - intros _. unfold rstrip. rewrite reverse_cons.
    destruct (lstrip_keeps_last (reverse r) c Hc) as [y ->].
    rewrite reverse_append. cbn [reverse rev_onto append lstrip].
    rewrite Hc. reflexivity.
Qed.

Lemma strip_idempotent (s : string) : strip (strip s) = strip s.
Proof.
  unfold strip.
  rewrite (rstrip_keeps_head (lstrip s) (lstrip_idempotent s)).
  unfold rstrip. rewrite reverse_involutive, lstrip_idempotent. reflexivity.
Qed.

(** X5. The title and the snippet of a paper [_extract_paper_data] gives
    carry no white space at either end: stripping them again changes
    nothing. *)
Theorem extracted_text_is_stripped :
  forall (md5 : string -> string) (e : result_element) (p : paper),
    _extract_paper_data md5 e = Some p ->
    strip (title p) = title p /\ strip (snippet p) = snippet p.
Proof.
  intros md5 e p H. apply _extract_paper_data_some in H.
  unfold extract_fields in H.
  destruct (gs_rt_a e) as [a|]; [|discriminate].
  destruct (gs_a e) as [detail|]; [|discriminate].
  cbn [find_element bind] in H.
  destruct (extract_year detail) as [y|]; [|discriminate].
  destruct (gs_rs e) as [body|]; [|discriminate].
  cbn [find_element bind] in H.
  destruct (extract_citations e) as [c|]; [|discriminate].
  destruct (extract_pdf_url e) as [u|]; [|discriminate].
  cbn [bind] in H. injection H as <-. cbn [title snippet].
  split; apply strip_idempotent.
Qed.

Lemma extracted_text_is_stripped_witness :
  strip (title deep_learning) = title deep_learning /\
  strip (snippet deep_learning) = snippet deep_learning.
Proof.
  apply (extracted_text_is_stripped toy_digest
           (block "  Deep Learning " "Y LeCun - nature, 2015 - nature.com")
           deep_learning eq_refl).
Defined.

(* ================================================================== *)
(** * Properties of [extract_abstract_from_link] *)
(* ================================================================== *)

Lemma first_abstract_some (find : string -> result string) (selectors : list string) :
  forall t,
    first_abstract find selectors = Ok (Some t) ->
    t <> "" /\
    exists before selector after text,
      selectors = before ++ selector :: after /\
      find selector = Ok text /\ t = strip text /\
      forall earlier, In earlier before ->
        find earlier = Raise NoSuchElementException \/
        exists blank, find earlier = Ok blank /\ strip blank = "".
Proof.
  induction selectors as [|sel rest IH]; intros t H; cbn [first_abstract] in H.
  - discriminate.
  - destruct (find sel) as [text|x] eqn:Hsel.
    + destruct (String.eqb (strip text) "") eqn:Hblank.
      * apply String.eqb_eq in Hblank.
        destruct (IH t H) as (Hne & before & s & after & tx & -> & Hs & Ht & Hearlier).
        split; [exact Hne|].
        exists (sel :: before), s, after, tx. repeat split; trivial.
        intros earlier [<-|Hin]; [right; exists text; split; assumption|auto].
      * injection H as <-. apply String.eqb_neq in Hblank.
        split; [exact Hblank|].
        exists [], sel, rest, text. repeat split; trivial. intros ? [].
    + destruct x; try discriminate.
      destruct (IH t H) as (Hne & before & s & after & tx & -> & Hs & Ht & Hearlier).
      split; [exact Hne|].
      exists (sel :: before), s, after, tx. repeat split; trivial.
      intros earlier [<-|Hin]; [left; exact Hsel|auto].
Qed.

(** X6. An abstract [extract_abstract_from_link] returns is not empty and
    is the stripped text of the element found by one of the six
    selectors, every selector tried before it having found no element or
    an element with blank text: the first selector with text wins, and an
    exception other than NoSuchElementException on an earlier selector
    hides the later ones. *)
Theorem extract_abstract_first_selector_wins :
  forall (w : publisher_page) (paper_url : string) (t : string),
    fst (extract_abstract_from_link w paper_url) = Abstract (Some t) ->
    t <> "" /\
    exists before selector after text,
      abstract_selectors = before ++ selector :: after /\
      select w selector = Ok text /\ t = strip text /\
      forall earlier, In earlier before ->
        select w earlier = Raise NoSuchElementException \/
        exists blank, select w earlier = Ok blank /\ strip blank = "".
Proof.
  intros w paper_url t. unfold extract_abstract_from_link.
  destruct (chrome_starts w); cbn [negb]; [|discriminate].
  destruct (page_loads w); cbn [negb]; [|discriminate].
  destruct (first_abstract (select w) abstract_selectors) as [found|x] eqn:Hfound;
    cbn [fst]; [|discriminate].
  intro H. injection H as ->. apply (first_abstract_some _ _ _ Hfound).
Qed.

Lemma extract_abstract_first_selector_wins_witness :
  "We prove a bound." <> "" /\
  exists before selector after text,
    abstract_selectors = before ++ selector :: after /\
    select springer_page selector = Ok text /\ "We prove a bound." = strip text /\
    forall earlier, In earlier before ->
      select springer_page earlier = Raise NoSuchElementException \/
      exists blank, select springer_page earlier = Ok blank /\ strip blank = "".
Proof.
  apply (extract_abstract_first_selector_wins springer_page
           "https://link.springer.com/article/1" "We prove a bound." eq_refl).
Defined.

(** X7. [extract_abstract_from_link] raises exactly when Chrome does not
    start: its [finally] clause then reads [driver], which was never
    assigned. In every other case it returns (an abstract or [None]) and
    quits the driver once, as the last thing it does. *)
Theorem extract_abstract_raises_without_chrome :
  forall (w : publisher_page) (paper_url : string),
    (chrome_starts w = false <->
     fst (extract_abstract_from_link w paper_url) = UnboundLocalError) /\
    (chrome_starts w = false ->
     quits (snd (extract_abstract_from_link w paper_url)) = 0%nat) /\
    (chrome_starts w = true ->
     quits (snd (extract_abstract_from_link w paper_url)) = 1%nat /\
     exists before, snd (extract_abstract_from_link w paper_url) = before ++ [Quit]).
Proof.
  intros w paper_url. unfold extract_abstract_from_link.
  destruct (chrome_starts w); cbn [negb].
  - destruct (page_loads w); cbn [negb].
    + destruct (first_abstract (select w) abstract_selectors) as [found|x];
        cbn [fst snd]; (split; [split; discriminate|]);
        (split; [discriminate|intros _; split; [reflexivity|]]).
      * exists [Get paper_url; RandomDelay]. reflexivity.
      * eexists [_; _; _]. reflexivity.
    + cbn [fst snd]. split; [split; discriminate|].
      split; [discriminate|intros _; split; [reflexivity|]].
      eexists [_; _]. reflexivity.
  - cbn [fst snd]. split; [split; reflexivity|].
    split; [intros _; reflexivity|discriminate].
Qed.

Lemma extract_abstract_raises_without_chrome_witness :
  (quits (snd (extract_abstract_from_link springer_page "https://link.springer.com/a"))
   = 1%nat /\
   exists before,
     snd (extract_abstract_from_link springer_page "https://link.springer.com/a")
     = before ++ [Quit]) /\
  fst (extract_abstract_from_link
         {| chrome_starts := false; page_loads := true;
            select := select springer_page |}
         "https://link.springer.com/a") = UnboundLocalError.
Proof.
  split.
  - apply (proj2 (proj2 (extract_abstract_raises_without_chrome springer_page
                           "https://link.springer.com/a"))).
    reflexivity.
  - apply (proj1 (proj1 (extract_abstract_raises_without_chrome
                           {| chrome_starts := false; page_loads := true;
                              select := select springer_page |}
                           "https://link.springer.com/a"))).
    reflexivity.
Defined.

(* ================================================================== *)
(** * Further properties of the Artifact Fetcher *)
(* ================================================================== *)

(** The calls of [session.get] and the files touched by one download. *)
Lemma download_trace :
  forall (w : fetch_world) (pdf_url : option string) (paper_id : string),
    let filepath := os_path_join papers_dir (fmt [paper_id; ".pdf"]) in
    let tr := snd (download_pdf_if_available w pdf_url paper_id) in
    (fetches tr <= 1)%nat /\
    match fst (download_pdf_if_available w pdf_url paper_id) with
    | Some path =>
        path = filepath /\
        written tr = [(filepath, match reply w with
                                 | Reply _ _ content => content
                                 | NoReply => ""
                                 end)] /\
        spoiled tr = [] /\
        exists status_code content_type content,
          reply w = Reply status_code content_type content /\
          ~ 400 <= status_code < 600 /\
          contains "pdf" (lower (match content_type with Some t => t | None => "" end))
          = true
    | None =>
        written tr = [] /\
        (spoiled tr = [] \/
         spoiled tr = [filepath] /\ fetches tr = 1%nat /\
         disk_writable w = false /\ file_opens w = true)
    end.
Proof.
  intros w pdf_url paper_id filepath tr. subst filepath tr.
  unfold download_pdf_if_available.
  destruct (falsy pdf_url); [split; [cbn; lia|split; [reflexivity|left; reflexivity]]|].
  unfold download_body.
  destruct (ua_random w) as [agent|];
    [|split; [cbn; lia|split; [reflexivity|left; reflexivity]]].
  destruct (reply w) as [|status_code content_type content];
    [split; [cbn; lia|split; [reflexivity|left; reflexivity]]|].
  unfold raise_for_status.
  destruct ((400 <=? status_code) && (status_code <? 600))%bool eqn:Hstatus;
    [split; [cbn; lia|split; [reflexivity|left; reflexivity]]|].
  destruct (contains "pdf" (lower match content_type with
                                  | Some t => t
                                  | None => ""
                                  end)) eqn:Hpdf; cbn [negb];
    [|split; [cbn; lia|split; [reflexivity|left; reflexivity]]].
  destruct (disk_writable w).
  - split; [cbn; lia|]. cbn [fst snd]. split; [reflexivity|].
    split; [reflexivity|]. split; [reflexivity|].
    exists status_code, content_type, content.
    split; [reflexivity|]. split; [|exact Hpdf].
    apply andb_false_iff in Hstatus.
    destruct Hstatus as [H|H]; [apply Z.leb_gt in H|apply Z.ltb_ge in H]; lia.
  - destruct (file_opens w).
    + split; [cbn; lia|]. split; [reflexivity|]. right. repeat split.
    + split; [cbn; lia|]. split; [reflexivity|]. left. reflexivity.
Qed.


(** A disk that fills up during the write: the call gives [None], and the
    file the paper had is emptied. *)
Example failed_write_spoils_the_file :
  download_pdf_if_available full_disk_world (Some "https://example.org/paper.pdf")
    "0cc175b9c0f1b6a8"
  = (None,
     [HttpGet "https://example.org/paper.pdf";
      BrokenWrite "../data/papers/0cc175b9c0f1b6a8.pdf";
      LogExn "Error downloading PDF from https://example.org/paper.pdf" OSError]).
Proof. vm_compute. reflexivity. Qed.

Lemma os_path_join_not_empty (name : string) :
  name <> "" -> os_path_join papers_dir name <> "".
Proof.
  intro Hname. unfold os_path_join.
  destruct (startswith "/" name); [exact Hname|].
  cbn. discriminate.
Qed.

Lemma fmt_pdf_not_empty (paper_id : string) : fmt [paper_id; ".pdf"] <> "".
Proof.
  unfold fmt. cbn [String.concat]. destruct paper_id; cbn; discriminate.
Qed.

(** X9. The route [/api/download-pdf/<paper_id>] answers 200 only when
    the file has been written in full, with the path of that file and the
    abstract [pdf_processor.extract_abstract] gives for it. It answers 400
    when the body is an object and no file has been written in full:
    without any call of [session.get] when the object has no [pdf_url] or
    an empty one. It answers 500 in two cases only: the body could not be
    read as an object, and nothing is fetched; or
    [pdf_processor.extract_abstract] raised on the file just written. *)
Theorem download_route_answers :
  forall (w : fetch_world) (extract_abstract : string -> result (option string))
         (req : download_request) (paper_id : string),
    let filepath := os_path_join papers_dir (fmt [paper_id; ".pdf"]) in
    let tr := snd (download_pdf w extract_abstract req paper_id) in
    match fst (download_pdf w extract_abstract req paper_id) with
    | Downloaded abstract path =>
        path = filepath /\
        extract_abstract filepath = Ok abstract /\
        (exists content, written tr = [(filepath, content)]) /\
        exists u, req = Body (Some u) /\ u <> ""
    | DownloadRefused error =>
        written tr = [] /\
        exists u, req = Body u /\
                  if falsy u then error = "PDF URL is required" /\ tr = []
                  else error = "Failed to download PDF"
    | DownloadCrashed e =>
        req = Unreadable e /\ tr = [] \/
        extract_abstract filepath = Raise e /\
        (exists content, written tr = [(filepath, content)]) /\
        exists u, req = Body (Some u) /\ u <> ""
    end.
Proof.
  intros w extract_abstract req paper_id filepath tr. subst filepath tr.
  unfold download_pdf.
  destruct req as [e|[u|]]; [left; split; reflexivity| |];
    [|split; [reflexivity|exists None; split; [reflexivity|split; reflexivity]]].
  destruct (String.eqb u "") eqn:Hu.
  - split; [reflexivity|]. exists (Some u). split; [reflexivity|].
    cbn [falsy]. rewrite Hu. split; reflexivity.
  - assert (Hreal : exists u0, Body (Some u) = Body (Some u0) /\ u0 <> "")
      by (exists u; split; [reflexivity|apply String.eqb_neq; exact Hu]).
    pose proof (download_trace w (Some u) paper_id) as [_ H].
    destruct (download_pdf_if_available w (Some u) paper_id) as [[path|] evs];
      cbn [fst snd] in *.
    + destruct H as (Hpath & Hwritten & _).
      assert (Hne : String.eqb path "" = false).
      { apply String.eqb_neq. rewrite Hpath.
        apply os_path_join_not_empty, fmt_pdf_not_empty. }
      rewrite Hne, Hpath.
      destruct (extract_abstract (os_path_join papers_dir (fmt [paper_id; ".pdf"])))
        as [abstract|e] eqn:Habs; cbn [fst snd].
      * split; [reflexivity|]. split; [reflexivity|].
        split; [eexists; exact Hwritten|exact Hreal].
      * right. split; [reflexivity|]. split; [eexists; exact Hwritten|exact Hreal].
    + destruct H as (Hwritten & _). split; [exact Hwritten|].
      exists (Some u). split; [reflexivity|]. cbn [falsy]. rewrite Hu. reflexivity.
Qed.

(** A download that goes through, a body that is a JSON list, and a
    download whose write fails. *)
Example download_route_three_answers :
  fst (download_pdf pdf_world (fun _ => Ok (Some "We prove a bound."))
         (Body (Some "https://example.org/paper.pdf")) "0cc175b9c0f1b6a8")
  = Downloaded (Some "We prove a bound.") "../data/papers/0cc175b9c0f1b6a8.pdf" /\
  download_pdf pdf_world (fun _ => Ok (Some "We prove a bound."))
    (Unreadable AttributeError) "0cc175b9c0f1b6a8"
  = (DownloadCrashed AttributeError, []) /\
  fst (download_pdf full_disk_world (fun _ => Ok (Some "We prove a bound."))
         (Body (Some "https://example.org/paper.pdf")) "0cc175b9c0f1b6a8")
  = DownloadRefused "Failed to download PDF".
Proof. repeat split. Qed.

(* ================================================================== *)
(** * Further properties of the Cache/Dedup Store *)
(* ================================================================== *)

Lemma NoDup_map_filter (A B : Type) (f : A -> B) (g : A -> bool) (l : list A) :
  NoDup (map f l) -> NoDup (map f (filter g l)).
Proof.
  induction l as [|a l IH]; intro H; cbn [filter map] in *; [constructor|].
  inversion H as [|x xs Hnotin Hrest]; subst.
  destruct (g a); cbn [map]; [|auto].
  constructor; [|auto].
  intro Hin. apply Hnotin. apply in_map_iff in Hin. destruct Hin as (y & Hy & Hin).
  apply filter_In in Hin. apply in_map_iff. exists y. tauto.
Qed.

Lemma NoDup_snoc (A : Type) (l : list A) (x : A) :
  NoDup l -> ~ In x l -> NoDup (l ++ [x]).
Proof.
  intros Hl Hx. induction l as [|a l IH]; cbn [app].
  - constructor; [intros []|constructor].
  - inversion Hl as [|y ys Hnotin Hrest]; subst. constructor.
    + intro Hin. apply in_app_or in Hin. destruct Hin as [Hin|[<-|[]]].
      * exact (Hnotin Hin).
      * apply Hx. left. reflexivity.
    + apply IH; [exact Hrest|]. intro Hin. apply Hx. right. exact Hin.
Qed.





(** X12. Writing the cache under one key changes no read under another:
    where the two key hashes differ, [get_cached_search] answers after the
    write what it answered before, whatever the validity asked. *)
Theorem cache_write_leaves_other_keys :
  forall (md5 : string -> string) (json : Type)
         (json_dumps : list paper -> json) (json_loads : json -> result (list paper))
         (db : store json) (now t hours : Z) (q q' : string) (n n' : Z)
         (r : list paper),
    _generate_query_hash md5 q' n' <> _generate_query_hash md5 q n ->
    get_cached_search md5 json_loads true t
      (fst (cache_search_results md5 json_dumps true now db q n r)) q' n' hours
    = get_cached_search md5 json_loads true t db q' n' hours.
Proof.
  intros. apply get_after_other_put. assumption.
Qed.

Lemma cache_write_leaves_other_keys_witness :
  get_cached_search toy_digest toy_loads true 1714557700
    (fst (cache_search_results toy_digest toy_dumps true 1714557600 empty_store
            "deep learning" 10 [deep_learning]))
    "deep learning" 25 24
  = get_cached_search toy_digest toy_loads true 1714557700 empty_store
      "deep learning" 25 24.
Proof.
  apply (cache_write_leaves_other_keys toy_digest (list paper) toy_dumps toy_loads
           empty_store 1714557600 1714557700 24 "deep learning" "deep learning"
           10 25 [deep_learning]).
  vm_compute. discriminate.
Defined.

(** X13. The constraints of the schema are kept: where [query_hash] and
    the row ids of [search_cache] are without repetition and below the
    AUTOINCREMENT counter, and the ids of [papers] are without repetition,
    they are so again after [cache_search_results], after [save_paper] and
    after [cleanup_old_cache], the database answering or not. *)
Theorem store_constraints_are_kept :
  forall (md5 : string -> string) (json : Type) (json_dumps : list paper -> json)
         (db : store json),
    constraints_hold db ->
    (forall reachable now q n r,
       constraints_hold (fst (cache_search_results md5 json_dumps reachable now db q n r))) /\
    (forall reachable now p,
       constraints_hold (fst (save_paper reachable now db p))) /\
    (forall reachable now days,
       constraints_hold (snd (fst (cleanup_old_cache reachable now db days)))).
Proof.
  intros md5 json json_dumps db (Hhash & Hids & Hseq & Hpapers).
  split; [|split].
  - intros [|] now q n r; unfold cache_search_results; cbn [negb fst];
      [|repeat split; assumption].
    destruct (sqlite_integer n); cbn [negb fst]; [|repeat split; assumption].
    set (h := _generate_query_hash md5 q n).
    unfold constraints_hold. cbn [search_cache search_cache_seq papers].
    rewrite !map_app. cbn [map query_hash cache_id].
    split; [|split; [|split]].
    + apply NoDup_snoc; [apply NoDup_map_filter; exact Hhash|].
      intro Hin. apply in_map_iff in Hin. destruct Hin as (x & Hx & Hin).
      apply filter_In in Hin. destruct Hin as [_ Hin].
      apply negb_true_iff in Hin. apply String.eqb_neq in Hin. exact (Hin Hx).
    + apply NoDup_snoc; [apply NoDup_map_filter; exact Hids|].
      intro Hin. apply in_map_iff in Hin. destruct Hin as (x & Hx & Hin).
      apply filter_In in Hin. destruct Hin as [Hin _].
      pose proof (Hseq x Hin). lia.
    + intros x Hx. apply in_app_or in Hx. destruct Hx as [Hx|[<-|[]]].
      * apply filter_In in Hx. destruct Hx as [Hx _]. pose proof (Hseq x Hx). lia.
      * cbn [cache_id]. lia.
    + exact Hpapers.
  - intros [|] now p; unfold save_paper; cbn [negb fst];
      [|repeat split; assumption].
    destruct (storable p); cbn [negb fst]; [|repeat split; assumption].
    unfold constraints_hold. cbn [search_cache search_cache_seq papers].
    repeat split; try assumption.
    rewrite map_app. cbn [map row_of_paper row_id].
    apply NoDup_snoc; [apply NoDup_map_filter; exact Hpapers|].
    intro Hin. apply in_map_iff in Hin. destruct Hin as (x & Hx & Hin).
    apply filter_In in Hin. destruct Hin as [_ Hin].
    apply negb_true_iff in Hin. apply String.eqb_neq in Hin. exact (Hin Hx).
  - intros [|] now days; unfold cleanup_old_cache; cbn [negb fst snd];
      [|repeat split; assumption].
    unfold constraints_hold. cbn [search_cache search_cache_seq papers].
    split; [apply NoDup_map_filter; exact Hhash|].
    split; [apply NoDup_map_filter; exact Hids|].
    split; [|exact Hpapers].
    intros x Hx. apply filter_In in Hx. destruct Hx as [Hx _]. exact (Hseq x Hx).
Qed.

Lemma empty_store_constraints : constraints_hold empty_store.
Proof.
  repeat split; cbn; try constructor. intros r [].
Qed.

Lemma store_constraints_are_kept_witness :
  constraints_hold
    (fst (cache_search_results toy_digest toy_dumps true 1714557600 empty_store
            "deep learning" 10 [deep_learning])).
Proof.
  apply (proj1 (store_constraints_are_kept toy_digest (list paper) toy_dumps
                  empty_store empty_store_constraints)).
Defined.

Lemma length_filter_le (A : Type) (f : A -> bool) (l : list A) :
  (List.length (filter f l) <= List.length l)%nat.
Proof.
  induction l as [|a l IH]; cbn [filter List.length]; [lia|].
  destruct (f a); cbn [List.length]; lia.
Qed.



(* ================================================================== *)
(** * Further properties of the route [/api/search] *)
(* ================================================================== *)



(** With a max_results beyond the INTEGERs of SQLite the first search
    answers the same way and caches nothing. *)
Example oversized_search_is_not_cached :
  option_map (fun answer => (fst (fst answer), snd (fst answer)))
    (search_papers toy_digest toy_dumps toy_loads 1 (world true) empty_store
       {| req_query := Some "deep learning";
          req_max_results := Some 9223372036854775808;
          req_year_range := None |})
  = Some (Success [deep_learning] false "2024-05-01T10:00:05", empty_store).
Proof. vm_compute. reflexivity. Qed.



(** X17. [search_papers] changes the store in one case only: a cache
    miss, a scrape that returns, and a database that takes the write; the
    store is then the one [cache_search_results] gives for the scraped
    list. On a refused request, a cache hit or a scrape that raises, the
    store is as it was. *)
Theorem search_touches_store_only_after_scrape :
  forall (md5 : string -> string) (json : Type)
         (json_dumps : list paper -> json) (json_loads : json -> result (list paper))
         (fuel : nat) (w : search_world) (db db' : store json)
         (req : search_request) (answer : response) (evs : list event),
    search_papers md5 json_dumps json_loads fuel w db req = Some (answer, db', evs) ->
    db' = db \/
    exists found,
      answer = Success found false (timestamp_now w) /\
      db_writable w = true /\
      db' = fst (cache_search_results md5 json_dumps true (db_clock w) db
                   (match req_query req with Some q => q | None => "" end)
                   (match req_max_results req with Some n => n | None => 50 end)
                   found).
Proof.
  intros md5 json json_dumps json_loads fuel w db db' req answer evs.
  unfold search_papers.
  set (q := match req_query req with Some q => q | None => "" end).
  set (n := match req_max_results req with Some n => n | None => 50 end).
  destruct (String.eqb q ""); [intro H; injection H as _ <- _; left; reflexivity|].
  destruct (get_cached_search md5 json_loads (db_readable w) (db_clock w) db q n 24)
    as [cached evs1].
  destruct (truthy cached); [intro H; injection H as _ <- _; left; reflexivity|].
  destruct (scrape_papers md5 fuel (browser w) q n (req_year_range req))
    as [[ps|e|] evs2];
    [|intro H; injection H as _ <- _; left; reflexivity|discriminate].
  destruct (db_writable w) eqn:Hw.
  - destruct (cache_search_results md5 json_dumps true (db_clock w) db q n ps)
      as [dbw evs3] eqn:Hwrite.
    intro H. injection H as <- <- _. right. exists ps.
    rewrite Hwrite. repeat split.
  - unfold cache_search_results. cbn [negb].
    intro H. injection H as _ <- _. left. reflexivity.
Qed.

Lemma search_touches_store_only_after_scrape_witness :
  empty_store = empty_store \/
  exists found,
    Success [deep_learning] false "2024-05-01T10:00:05"
    = Success found false (timestamp_now (world false)) /\
    db_writable (world false) = true /\
    empty_store
    = fst (cache_search_results toy_digest toy_dumps true (db_clock (world false))
             empty_store
             (match req_query deep_learning_request with Some q => q | None => "" end)
             (match req_max_results deep_learning_request with
              | Some n => n | None => 50 end)
             found).
Proof.
  eapply (search_touches_store_only_after_scrape toy_digest (list paper) toy_dumps
            toy_loads 1 (world false) empty_store empty_store deep_learning_request).
  reflexivity.
Defined.

(* ================================================================== *)
(** * Properties of [paginate_results] *)
(* ================================================================== *)

Lemma skipn_beyond (A : Type) (n : nat) (l : list A) :
  (List.length l <= n)%nat -> skipn n l = [].
Proof.
  revert l. induction n as [|n IH]; intros [|a l] H; cbn in *; try reflexivity.
  - lia.
  - apply IH. lia.
Qed.

Lemma firstn_then_next (A : Type) (a b : nat) (l : list A) :
  firstn a l ++ firstn b (skipn a l) = firstn (a + b) l.
Proof.
  revert l. induction a as [|a IH]; intro l; [reflexivity|].
  destruct l as [|x l]; cbn [firstn skipn Nat.add app].
  - rewrite firstn_nil. reflexivity.
  - rewrite IH. reflexivity.
Qed.

(** A slice between two bounds that are not negative. *)
Lemma py_slice_window (A : Type) (l : list A) (a k : Z) :
  0 <= a -> 0 <= k ->
  py_slice l a (a + k) = firstn (Z.to_nat k) (skipn (Z.to_nat a) l).
Proof.
  intros Ha Hk. unfold py_slice, slice_bound.
  destruct (Z.ltb_spec a 0); [lia|]. destruct (Z.ltb_spec (a + k) 0); [lia|].
  destruct (Z.le_gt_cases (len l) a) as [Hout|Hin].
  - rewrite (skipn_beyond _ (Z.to_nat a) l) by (unfold len in Hout; lia).
    rewrite (skipn_beyond _ (Z.to_nat (Z.min a (len l))) l) by (unfold len in *; lia).
    rewrite !firstn_nil. reflexivity.
  - replace (Z.min a (len l)) with a by lia.
    destruct (Z.le_gt_cases (a + k) (len l)) as [Hfit|Hover].
    + replace (Z.min (a + k) (len l) - a) with k by lia. reflexivity.
    + rewrite !firstn_all2; [reflexivity| |];
        rewrite length_skipn; unfold len in *; lia.
Qed.

Lemma page_count_bounds (total per_page : Z) :
  0 < per_page ->
  let pages := (total + per_page - 1) / per_page in
  total <= pages * per_page /\ pages * per_page <= total + per_page - 1.
Proof.
  intros Hk pages. subst pages.
  pose proof (Z.div_mod (total + per_page - 1) per_page ltac:(lia)) as Hdm.
  pose proof (Z.mod_pos_bound (total + per_page - 1) per_page Hk) as Hm.
  split; nia.
Qed.

(** The page [paginate_results] gives, and what it reports. *)
Lemma paginate_results_facts :
  forall (A : Type) (data : list A) (page per_page : Z),
    (per_page = 0 -> paginate_results data page per_page = (data, None)) /\
    (0 < per_page ->
     let p := Z.max 1 page in
     fst (paginate_results data page per_page)
     = firstn (Z.to_nat per_page) (skipn (Z.to_nat ((p - 1) * per_page)) data) /\
     len (fst (paginate_results data page per_page)) <= per_page /\
     exists info,
       snd (paginate_results data page per_page) = Some info /\
       pg_page info = p /\ pg_total info = len data /\
       (pg_has_next info = true <-> p < pg_pages info) /\
       (pg_has_prev info = true <-> 1 < p) /\
       (pg_pages info < p -> fst (paginate_results data page per_page) = [])).
Proof.
  intros A data page per_page. split.
  - intros ->. reflexivity.
  - intros Hk p. unfold paginate_results.
    destruct (Z.eqb_spec per_page 0) as [|_]; [lia|].
    fold p. cbn [fst snd].
    assert (Hstart : 0 <= (p - 1) * per_page) by (subst p; nia).
    rewrite (py_slice_window A data _ _ Hstart (Z.lt_le_incl _ _ Hk)).
    split; [reflexivity|]. split.
    + unfold len.
      pose proof (firstn_le_length (Z.to_nat per_page)
                    (skipn (Z.to_nat ((p - 1) * per_page)) data)). lia.
    + eexists. split; [reflexivity|]. cbn [pg_page pg_total pg_has_next pg_has_prev pg_pages].
      destruct (page_count_bounds (len data) per_page Hk) as [Hlo Hhi].
      set (pages := (len data + per_page - 1) / per_page) in *.
      repeat split.
      * intro H. apply Z.ltb_lt in H. nia.
      * intro H. apply Z.ltb_lt. nia.
      * intro H. rewrite Z.gtb_ltb in H. apply Z.ltb_lt in H. exact H.
      * intro H. rewrite Z.gtb_ltb. apply Z.ltb_lt. exact H.
      * intro H. rewrite skipn_beyond; [apply firstn_nil|].
        unfold len in *. nia.
Qed.

(** X18. With a positive [per_page], [paginate_results] gives for page p
    (a page below 1 counting as page 1) the [per_page] items that follow
    the first (p - 1) * per_page, fewer at the end of the data and none
    beyond the last page; has_next tells exactly whether p is below the
    page count, has_prev whether p is above 1. With [per_page] 0 it gives
    all the data and no pagination. *)
Theorem paginate_results_gives_the_page :
  forall (A : Type) (data : list A) (page per_page : Z),
    (per_page = 0 -> paginate_results data page per_page = (data, None)) /\
    (0 < per_page ->
     let p := Z.max 1 page in
     fst (paginate_results data page per_page)
     = firstn (Z.to_nat per_page) (skipn (Z.to_nat ((p - 1) * per_page)) data) /\
     len (fst (paginate_results data page per_page)) <= per_page /\
     exists info,
       snd (paginate_results data page per_page) = Some info /\
       pg_page info = p /\ pg_total info = len data /\
       (pg_has_next info = true <-> p < pg_pages info) /\
       (pg_has_prev info = true <-> 1 < p) /\
       (pg_pages info < p -> fst (paginate_results data page per_page) = [])).
Proof. exact paginate_results_facts. Qed.

Lemma paginate_results_gives_the_page_witness :
  fst (paginate_results [1; 2; 3; 4; 5] 2 2)
  = firstn (Z.to_nat 2) (skipn (Z.to_nat ((Z.max 1 2 - 1) * 2)) [1; 2; 3; 4; 5]).
Proof.
  apply (proj2 (paginate_results_gives_the_page Z [1; 2; 3; 4; 5] 2 2)). lia.
Defined.

Lemma pages_up_to (A : Type) (data : list A) (k m : nat) :
  List.concat (map (fun p => firstn k (skipn ((p - 1) * k) data)) (seq 1 m))
  = firstn (m * k) data.
Proof.
  induction m as [|m IH]; [reflexivity|].
  rewrite seq_S, map_app, concat_app, IH. cbn [map List.concat Nat.add].
  rewrite app_nil_r. replace (S m - 1)%nat with m by lia.
  rewrite firstn_then_next. f_equal. lia.
Qed.

(** X19. With a positive [per_page], the pages 1 to the page count that
    [paginate_results] reports, put end to end, are the data: nothing is
    lost and nothing comes twice. *)
Theorem paginate_results_pages_cover_the_data :
  forall (A : Type) (data : list A) (per_page : Z),
    0 < per_page ->
    let pages := (len data + per_page - 1) / per_page in
    List.concat (map (fun p => fst (paginate_results data (Z.of_nat p) per_page))
                (seq 1 (Z.to_nat pages)))
    = data.
Proof.
  intros A data per_page Hk pages.
  destruct (page_count_bounds (len data) per_page Hk) as [Hlo Hhi]. fold pages in Hlo, Hhi.
  rewrite (map_ext_in _ (fun p => firstn (Z.to_nat per_page)
                                    (skipn ((p - 1) * Z.to_nat per_page) data))).
  - rewrite pages_up_to. apply firstn_all2. unfold len in *. nia.
  - intros p Hp. apply in_seq in Hp.
    destruct (paginate_results_facts A data (Z.of_nat p) per_page) as [_ H].
    destruct (H Hk) as [-> _]. do 2 f_equal. nia.
Qed.

Lemma paginate_results_pages_cover_the_data_witness :
  List.concat (map (fun p => fst (paginate_results [1; 2; 3; 4; 5] (Z.of_nat p) 2))
              (seq 1 (Z.to_nat ((len [1; 2; 3; 4; 5] + 2 - 1) / 2))))
  = [1; 2; 3; 4; 5].
Proof.
  apply (paginate_results_pages_cover_the_data Z [1; 2; 3; 4; 5] 2). lia.
Defined.

(* ================================================================== *)
(** * Properties of [sanitize_input] *)
(* ================================================================== *)

Lemma all_chars_filter (test : ascii -> bool) (s : string) :
  all_chars test (filter_chars test s) = true.
Proof.
  induction s as [|c r IH]; cbn [filter_chars all_chars]; [reflexivity|].
  destruct (test c) eqn:Hc; cbn [all_chars]; [rewrite Hc|]; exact IH.
Qed.

Lemma filter_chars_all (test : ascii -> bool) (s : string) :
  all_chars test s = true -> filter_chars test s = s.
Proof.
  induction s as [|c r IH]; cbn [filter_chars all_chars]; [reflexivity|].
  intro H. apply andb_true_iff in H. destruct H as [Hc Hr].
  rewrite Hc, (IH Hr). reflexivity.
Qed.

Lemma all_chars_lstrip (test : ascii -> bool) (s : string) :
  all_chars test s = true -> all_chars test (lstrip s) = true.
Proof.
  induction s as [|c r IH]; cbn [lstrip all_chars]; [reflexivity|].
  intro H. destruct (isspace c); [|exact H].
  apply andb_true_iff in H. apply IH. apply H.
Qed.

Lemma all_chars_rev_onto (test : ascii -> bool) (s : string) :
  forall acc, all_chars test s = true -> all_chars test acc = true ->
              all_chars test (rev_onto s acc) = true.
Proof.
  induction s as [|c r IH]; intros acc Hs Hacc; cbn [rev_onto all_chars] in *.
  - exact Hacc.
  - apply andb_true_iff in Hs. destruct Hs as [Hc Hr].
    apply IH; [exact Hr|]. cbn [all_chars]. rewrite Hc. exact Hacc.
Qed.

Lemma all_chars_strip (test : ascii -> bool) (s : string) :
  all_chars test s = true -> all_chars test (strip s) = true.
Proof.
  intro H. unfold strip, rstrip, reverse.
  apply all_chars_rev_onto; [|reflexivity]. apply all_chars_lstrip.
  apply all_chars_rev_onto; [|reflexivity]. apply all_chars_lstrip. exact H.
Qed.

Lemma all_chars_of_list (test : ascii -> bool) (l : list ascii) :
  all_chars test (string_of_list_ascii l) = forallb test l.
Proof.
  induction l as [|c l IH]; cbn; [reflexivity|rewrite IH; reflexivity].
Qed.

Lemma all_chars_to_list (test : ascii -> bool) (s : string) :
  forallb test (list_ascii_of_string s) = all_chars test s.
Proof.
  induction s as [|c r IH]; cbn; [reflexivity|rewrite IH; reflexivity].
Qed.

Lemma forallb_window (A : Type) (test : A -> bool) (l : list A) (n k : nat) :
  forallb test l = true -> forallb test (firstn n (skipn k l)) = true.
Proof.
  intro H. apply forallb_forall. intros x Hx.
  apply in_firstn in Hx.
  assert (Hin : In x l).
  { rewrite <- (firstn_skipn k l). apply in_or_app. right. exact Hx. }
  exact (proj1 (forallb_forall test l) H x Hin).
Qed.

Lemma all_chars_str_upto (test : ascii -> bool) (s : string) (stop : Z) :
  all_chars test s = true -> all_chars test (str_upto s stop) = true.
Proof.
  intro H. unfold str_upto, py_slice. rewrite all_chars_of_list.
  apply forallb_window. rewrite all_chars_to_list. exact H.
Qed.

Lemma length_of_list (l : list ascii) :
  String.length (string_of_list_ascii l) = List.length l.
Proof. induction l as [|c l IH]; cbn; [reflexivity|rewrite IH; reflexivity]. Qed.

Lemma length_str_upto (s : string) (stop : Z) :
  0 <= stop -> Z.of_nat (String.length (str_upto s stop)) <= stop.
Proof.
  intro Hstop. unfold str_upto, py_slice, slice_bound.
  rewrite length_of_list.
  destruct (Z.ltb_spec 0 0); [lia|]. destruct (Z.ltb_spec stop 0); [lia|].
  set (n := len (list_ascii_of_string s)).
  pose proof (firstn_le_length (Z.to_nat (Z.min stop n - Z.min 0 n))
                (skipn (Z.to_nat (Z.min 0 n)) (list_ascii_of_string s))) as Hle.
  assert (0 <= n) by apply len_nonneg. lia.
Qed.

Lemma length_lstrip (s : string) : (String.length (lstrip s) <= String.length s)%nat.
Proof.
  induction s as [|c r IH]; cbn [lstrip String.length]; [lia|].
  destruct (isspace c); cbn [String.length]; lia.
Qed.

Lemma length_rev_onto (s : string) :
  forall acc, String.length (rev_onto s acc) = (String.length s + String.length acc)%nat.
Proof.
  induction s as [|c r IH]; intro acc; cbn [rev_onto String.length]; [reflexivity|].
  rewrite IH. cbn [String.length]. lia.
Qed.

Lemma length_strip (s : string) : (String.length (strip s) <= String.length s)%nat.
Proof.
  unfold strip, rstrip, reverse. rewrite length_rev_onto. cbn [String.length].
  pose proof (length_lstrip (rev_onto (lstrip s) "")) as H1.
  rewrite length_rev_onto in H1. cbn [String.length] in H1.
  pose proof (length_lstrip s). lia.
Qed.

Lemma remove_tags_without_bracket (s : string) :
  all_chars harmless s = true -> remove_tags false s = s.
Proof.
  induction s as [|c r IH]; cbn [remove_tags all_chars]; [reflexivity|].
  intro H. apply andb_true_iff in H. destruct H as [Hc Hr].
  unfold harmless, dangerous in Hc. apply negb_true_iff in Hc.
  apply orb_false_iff in Hc. destruct Hc as [Hc _].
  apply orb_false_iff in Hc. destruct Hc as [Hc _].
  apply orb_false_iff in Hc. destruct Hc as [Hc _].
  rewrite Hc. cbn [andb]. rewrite (IH Hr). reflexivity.
Qed.

(** What holds of every output of [sanitize_input]. *)
Lemma sanitize_input_facts :
  forall (text : string) (max_length : Z),
    all_chars harmless (sanitize_input text max_length) = true /\
    strip (sanitize_input text max_length) = sanitize_input text max_length /\
    (0 <= max_length ->
     Z.of_nat (String.length (sanitize_input text max_length)) <= max_length).
Proof.
  intros text max_length. unfold sanitize_input.
  destruct (String.eqb text ""); [repeat split; cbn; lia|].
  set (cleaned := filter_chars (fun c => negb (dangerous c)) (remove_tags false text)).
  assert (Hclean : all_chars harmless cleaned = true) by apply all_chars_filter.
  split; [|split].
  - apply all_chars_strip.
    destruct (Z.of_nat (String.length cleaned) >? max_length);
      [apply all_chars_str_upto|]; exact Hclean.
  - apply strip_idempotent.
  - intro Hmax.
    destruct (Z.gtb_spec (Z.of_nat (String.length cleaned)) max_length) as [Hlong|Hfit].
    + pose proof (length_strip (str_upto cleaned max_length)).
      pose proof (length_str_upto cleaned max_length Hmax). lia.
    + pose proof (length_strip cleaned). lia.
Qed.

(** X20. What [sanitize_input] gives holds none of the four characters
    of its second pattern (the angle brackets and the two quotes), has no
    white space at either end, and, for a [max_length] that is not
    negative, is at most [max_length] characters long. *)
Theorem sanitize_input_output_is_safe :
  forall (text : string) (max_length : Z),
    all_chars harmless (sanitize_input text max_length) = true /\
    strip (sanitize_input text max_length) = sanitize_input text max_length /\
    (0 <= max_length ->
     Z.of_nat (String.length (sanitize_input text max_length)) <= max_length).
Proof. exact sanitize_input_facts. Qed.

Lemma sanitize_input_output_is_safe_witness :
  Z.of_nat (String.length (sanitize_input "  <b>Deep</b> 'learning' > all  " 12)) <= 12.
Proof.
  apply (proj2 (proj2 (sanitize_input_output_is_safe
                         "  <b>Deep</b> 'learning' > all  " 12))).
  lia.
Defined.

(** X21. A text with none of the four characters and no longer than
    [max_length] comes out of [sanitize_input] stripped and otherwise
    unchanged; so, for a [max_length] that is not negative, sanitizing
    twice gives what sanitizing once gives. *)
Theorem sanitize_input_is_idempotent :
  forall (text : string) (max_length : Z),
    (all_chars harmless text = true ->
     Z.of_nat (String.length text) <= max_length ->
     sanitize_input text max_length = strip text) /\
    (0 <= max_length ->
     sanitize_input (sanitize_input text max_length) max_length
     = sanitize_input text max_length).
Proof.
  assert (Hpass : forall text max_length,
             all_chars harmless text = true ->
             Z.of_nat (String.length text) <= max_length ->
             sanitize_input text max_length = strip text).
  { intros text max_length Hsafe Hfit. unfold sanitize_input.
    destruct (String.eqb_spec text "") as [->|_]; [reflexivity|].
    rewrite (remove_tags_without_bracket _ Hsafe).
    rewrite (filter_chars_all (fun c => negb (dangerous c)) text Hsafe).
    destruct (Z.gtb_spec (Z.of_nat (String.length text)) max_length); [lia|reflexivity]. }
  intros text max_length. split; [apply Hpass|].
  intro Hmax.
  destruct (sanitize_input_facts text max_length) as (Hsafe & Hstrip & Hlen).
  rewrite Hpass; [exact Hstrip|exact Hsafe|exact (Hlen Hmax)].
Qed.

Lemma sanitize_input_is_idempotent_witness :
  sanitize_input " deep learning " 1000 = strip " deep learning " /\
  sanitize_input (sanitize_input "<i>x</i>" 5) 5 = sanitize_input "<i>x</i>" 5.
Proof.
  split.
  - apply (proj1 (sanitize_input_is_idempotent " deep learning " 1000)).
    + reflexivity.
    + vm_compute. discriminate.
  - apply (proj2 (sanitize_input_is_idempotent "<i>x</i>" 5)). lia.
Defined.

Example sanitize_input_drops_tags :
  sanitize_input "  <b>Deep</b> 'learning' > all  " 12 = "Deep learn"
  /\ sanitize_input "a <> b < c" 100 = "a  b  c".
Proof. split; vm_compute; reflexivity. Qed.

(* ================================================================== *)
(** * When a block is lost *)
(* ================================================================== *)


